(** * capture_walking: footstep plan and controller accessors

    A shallow embedding of the inline member functions of
    [include/capture_walking/FootstepPlan.h] and
    [include/capture_walking/Controller.h].

    Conventions of the embedding.

    - A finite C++ [double] is an exact rational ([Q]): every finite
      binary64 value is one.  Arithmetic is the field arithmetic of [Q], so
      rounding error and overflow are outside the model.  The one operation
      of the two headers that can leave the finite values on finite
      operands, the division of [measuredLeftFootRatio], returns a [double]
      that keeps the IEEE 754 outcomes of a zero divisor.
    - The headers do arithmetic in three places: the quotient and the
      product of the two rounding setters, and the sum and the quotient of
      [measuredLeftFootRatio].  Binary64 rounds each of these results and
      the model does not, so what the model computes there can differ from
      the code in the last digits, and by one sampling period at a request
      halfway between two multiples.  The theorems below are about ranges,
      orders, bounds with room to spare and equalities at values where no
      rounding happens; none concludes that a stored duration is an exact
      multiple of the period.
    - A setter [x(double v)] and the getter [x()] share a name in C++; the
      setter is [set_x] here and the getter keeps the name.
    - A [const] member function is a function of the object; a member
      function that writes a member returns the new object with its
      result.
    - The member functions that the headers only declare ([reset],
      [goToNextFootstep]) and the types and helpers of headers that are
      not available ([Contact], [clamp]) are modelled from the specification;
      each such definition says so. *)

From Stdlib Require Import QArith Qround Qabs ZArith Lia Lqa.
From stdpp Require Import base strings gmap.

Local Open Scope Q_scope.

(** ** Numbers *)

(** The values a [double] expression can take. *)
Inductive double : Type :=
| Finite (q : Q)
| Infinity (negative : bool)
| NaN.

Definition isfinite (d : double) : bool :=
  match d with
  | Finite _ => true
  | _ => false
  end.

(** [x / y] on finite operands: a zero divisor gives NaN for [0 / 0] and an
    infinity otherwise, as IEEE 754 division does. *)
Definition fdiv (x y : Q) : double :=
  if Qeq_bool y 0 then
    if Qeq_bool x 0 then NaN else Infinity (negb (Qle_bool 0 x))
  else Finite (x / y).

(** [std::max(a, b)] is [(a < b) ? b : a]. *)
Definition std_max (a b : Q) : Q :=
  if Qlt_le_dec a b then b else a.

(** [std::round]: the nearest integer, halfway cases away from zero. *)
Definition std_round (x : Q) : Q :=
  inject_Z (if Qlt_le_dec x 0 then Qceiling (x - 0.5) else Qfloor (x + 0.5)).

(** Modelled from the spec: [clamp(v, vMin, vMax)] of
    [capture_walking/utils/clamp.h], a header that is not available.
    The spec has every setter "clamp to a fixed physical range", an
    out-of-range value yielding "the nearest boundary value". *)
Definition clamp (v vMin vMax : Q) : Q :=
  if Qlt_le_dec vMax v then vMax
  else if Qlt_le_dec v vMin then vMin
  else v.

(** [v] is an integer number of periods [T]. *)
Definition multiple_of (T v : Q) : Prop :=
  exists k : Z, v == inject_Z k * T.

(** ** Configuration dictionaries and contacts *)

(** [Eigen::Vector3d]. *)
Record Vector3d : Type := {
  vx : Q;
  vy : Q;
  vz : Q
}.

Definition Vector3d_Zero : Vector3d := {| vx := 0; vy := 0; vz := 0 |}.

(** An entry of an [mc_rtc::Configuration] dictionary. *)
Inductive ConfigValue : Type :=
| CfgNumber (x : Q)
| CfgVector (v : Vector3d)
| CfgString (s : string).

(** What a call returns: a value, or the exception [mc_rtc::Configuration]
    throws when an entry is missing or has another type than the one asked
    for. *)
Inductive result (A : Type) : Type :=
| Ok (a : A)
| ConfigurationException.

Arguments Ok {A} a.
Arguments ConfigurationException {A}.

Module Configuration.

(** [Configuration::has(key)]. *)
Definition has (c : gmap string ConfigValue) (key : string) : bool :=
  bool_decide (is_Some (c !! key)).

(** [c(key)] converted to [double]. *)
Definition as_double (c : gmap string ConfigValue) (key : string) : result Q :=
  match c !! key with
  | Some (CfgNumber x) => Ok x
  | _ => ConfigurationException
  end.

(** [c(key)] converted to [Eigen::Vector3d]. *)
Definition as_Vector3d (c : gmap string ConfigValue) (key : string) : result Vector3d :=
  match c !! key with
  | Some (CfgVector v) => Ok v
  | _ => ConfigurationException
  end.

End Configuration.

(** Modelled from the spec: [Contact] of [capture_walking/Contact.h], a
    header that is not available.  The spec gives a contact an
    ordinal [id] (an integer, monotonic in plan order) and per-contact
    [swingConfig] overrides; its pose and surface are read by no function of
    the two headers. *)
Record Contact : Type := {
  id : Z;
  swingConfig : gmap string ConfigValue
}.

Definition Contact_default : Contact := {| id := 0; swingConfig := ∅ |}.

(** ** FootstepPlan.h *)

Module FootstepPlan.

(** The data members of [struct FootstepPlan], in the order of the header. *)
Record t : Type := {
  name : string;
  nextContact_ : Contact;
  prevContact_ : Contact;
  supportContact_ : Contact;
  targetContact_ : Contact;
  takeoffOffset_ : Vector3d;
  comHeight_ : Q;
  doubleSupportDuration_ : Q;
  finalDSPDuration_ : Q;
  initDSPDuration_ : Q;
  landingPitch_ : Q;
  landingRatio_ : Q;
  singleSupportDuration_ : Q;
  swingHeight_ : Q;
  takeoffPitch_ : Q;
  takeoffRatio_ : Q;
  contacts_ : list Contact;
  nextFootstep_ : Z
}.

(** A default-constructed plan: the default member initialisers. *)
Definition init : t := {|
  name := "";
  nextContact_ := Contact_default;
  prevContact_ := Contact_default;
  supportContact_ := Contact_default;
  targetContact_ := Contact_default;
  takeoffOffset_ := Vector3d_Zero;
  comHeight_ := 0.78;
  doubleSupportDuration_ := 0.2;
  finalDSPDuration_ := 0.6;
  initDSPDuration_ := 0.6;
  landingPitch_ := 0;
  landingRatio_ := 0.05;
  singleSupportDuration_ := 0.8;
  swingHeight_ := 0.04;
  takeoffPitch_ := 0;
  takeoffRatio_ := 0.05;
  contacts_ := [];
  nextFootstep_ := 0
|}.

(** *** Assignments to one member *)

Definition with_takeoffOffset (x : Vector3d) (p : t) : t :=
  {| name := name p; nextContact_ := nextContact_ p; prevContact_ := prevContact_ p;
     supportContact_ := supportContact_ p; targetContact_ := targetContact_ p;
     takeoffOffset_ := x;
     comHeight_ := comHeight_ p; doubleSupportDuration_ := doubleSupportDuration_ p;
     finalDSPDuration_ := finalDSPDuration_ p; initDSPDuration_ := initDSPDuration_ p;
     landingPitch_ := landingPitch_ p; landingRatio_ := landingRatio_ p;
     singleSupportDuration_ := singleSupportDuration_ p; swingHeight_ := swingHeight_ p;
     takeoffPitch_ := takeoffPitch_ p; takeoffRatio_ := takeoffRatio_ p;
     contacts_ := contacts_ p; nextFootstep_ := nextFootstep_ p |}.

Definition with_comHeight (x : Q) (p : t) : t :=
  {| name := name p; nextContact_ := nextContact_ p; prevContact_ := prevContact_ p;
     supportContact_ := supportContact_ p; targetContact_ := targetContact_ p;
     takeoffOffset_ := takeoffOffset_ p;
     comHeight_ := x; doubleSupportDuration_ := doubleSupportDuration_ p;
     finalDSPDuration_ := finalDSPDuration_ p; initDSPDuration_ := initDSPDuration_ p;
     landingPitch_ := landingPitch_ p; landingRatio_ := landingRatio_ p;
     singleSupportDuration_ := singleSupportDuration_ p; swingHeight_ := swingHeight_ p;
     takeoffPitch_ := takeoffPitch_ p; takeoffRatio_ := takeoffRatio_ p;
     contacts_ := contacts_ p; nextFootstep_ := nextFootstep_ p |}.

Definition with_doubleSupportDuration (x : Q) (p : t) : t :=
  {| name := name p; nextContact_ := nextContact_ p; prevContact_ := prevContact_ p;
     supportContact_ := supportContact_ p; targetContact_ := targetContact_ p;
     takeoffOffset_ := takeoffOffset_ p;
     comHeight_ := comHeight_ p; doubleSupportDuration_ := x;
     finalDSPDuration_ := finalDSPDuration_ p; initDSPDuration_ := initDSPDuration_ p;
     landingPitch_ := landingPitch_ p; landingRatio_ := landingRatio_ p;
     singleSupportDuration_ := singleSupportDuration_ p; swingHeight_ := swingHeight_ p;
     takeoffPitch_ := takeoffPitch_ p; takeoffRatio_ := takeoffRatio_ p;
     contacts_ := contacts_ p; nextFootstep_ := nextFootstep_ p |}.

Definition with_finalDSPDuration (x : Q) (p : t) : t :=
  {| name := name p; nextContact_ := nextContact_ p; prevContact_ := prevContact_ p;
     supportContact_ := supportContact_ p; targetContact_ := targetContact_ p;
     takeoffOffset_ := takeoffOffset_ p;
     comHeight_ := comHeight_ p; doubleSupportDuration_ := doubleSupportDuration_ p;
     finalDSPDuration_ := x; initDSPDuration_ := initDSPDuration_ p;
     landingPitch_ := landingPitch_ p; landingRatio_ := landingRatio_ p;
     singleSupportDuration_ := singleSupportDuration_ p; swingHeight_ := swingHeight_ p;
     takeoffPitch_ := takeoffPitch_ p; takeoffRatio_ := takeoffRatio_ p;
     contacts_ := contacts_ p; nextFootstep_ := nextFootstep_ p |}.

Definition with_initDSPDuration (x : Q) (p : t) : t :=
  {| name := name p; nextContact_ := nextContact_ p; prevContact_ := prevContact_ p;
     supportContact_ := supportContact_ p; targetContact_ := targetContact_ p;
     takeoffOffset_ := takeoffOffset_ p;
     comHeight_ := comHeight_ p; doubleSupportDuration_ := doubleSupportDuration_ p;
     finalDSPDuration_ := finalDSPDuration_ p; initDSPDuration_ := x;
     landingPitch_ := landingPitch_ p; landingRatio_ := landingRatio_ p;
     singleSupportDuration_ := singleSupportDuration_ p; swingHeight_ := swingHeight_ p;
     takeoffPitch_ := takeoffPitch_ p; takeoffRatio_ := takeoffRatio_ p;
     contacts_ := contacts_ p; nextFootstep_ := nextFootstep_ p |}.

Definition with_landingPitch (x : Q) (p : t) : t :=
  {| name := name p; nextContact_ := nextContact_ p; prevContact_ := prevContact_ p;
     supportContact_ := supportContact_ p; targetContact_ := targetContact_ p;
     takeoffOffset_ := takeoffOffset_ p;
     comHeight_ := comHeight_ p; doubleSupportDuration_ := doubleSupportDuration_ p;
     finalDSPDuration_ := finalDSPDuration_ p; initDSPDuration_ := initDSPDuration_ p;
     landingPitch_ := x; landingRatio_ := landingRatio_ p;
     singleSupportDuration_ := singleSupportDuration_ p; swingHeight_ := swingHeight_ p;
     takeoffPitch_ := takeoffPitch_ p; takeoffRatio_ := takeoffRatio_ p;
     contacts_ := contacts_ p; nextFootstep_ := nextFootstep_ p |}.

Definition with_landingRatio (x : Q) (p : t) : t :=
  {| name := name p; nextContact_ := nextContact_ p; prevContact_ := prevContact_ p;
     supportContact_ := supportContact_ p; targetContact_ := targetContact_ p;
     takeoffOffset_ := takeoffOffset_ p;
     comHeight_ := comHeight_ p; doubleSupportDuration_ := doubleSupportDuration_ p;
     finalDSPDuration_ := finalDSPDuration_ p; initDSPDuration_ := initDSPDuration_ p;
     landingPitch_ := landingPitch_ p; landingRatio_ := x;
     singleSupportDuration_ := singleSupportDuration_ p; swingHeight_ := swingHeight_ p;
     takeoffPitch_ := takeoffPitch_ p; takeoffRatio_ := takeoffRatio_ p;
     contacts_ := contacts_ p; nextFootstep_ := nextFootstep_ p |}.

Definition with_singleSupportDuration (x : Q) (p : t) : t :=
  {| name := name p; nextContact_ := nextContact_ p; prevContact_ := prevContact_ p;
     supportContact_ := supportContact_ p; targetContact_ := targetContact_ p;
     takeoffOffset_ := takeoffOffset_ p;
     comHeight_ := comHeight_ p; doubleSupportDuration_ := doubleSupportDuration_ p;
     finalDSPDuration_ := finalDSPDuration_ p; initDSPDuration_ := initDSPDuration_ p;
     landingPitch_ := landingPitch_ p; landingRatio_ := landingRatio_ p;
     singleSupportDuration_ := x; swingHeight_ := swingHeight_ p;
     takeoffPitch_ := takeoffPitch_ p; takeoffRatio_ := takeoffRatio_ p;
     contacts_ := contacts_ p; nextFootstep_ := nextFootstep_ p |}.

Definition with_swingHeight (x : Q) (p : t) : t :=
  {| name := name p; nextContact_ := nextContact_ p; prevContact_ := prevContact_ p;
     supportContact_ := supportContact_ p; targetContact_ := targetContact_ p;
     takeoffOffset_ := takeoffOffset_ p;
     comHeight_ := comHeight_ p; doubleSupportDuration_ := doubleSupportDuration_ p;
     finalDSPDuration_ := finalDSPDuration_ p; initDSPDuration_ := initDSPDuration_ p;
     landingPitch_ := landingPitch_ p; landingRatio_ := landingRatio_ p;
     singleSupportDuration_ := singleSupportDuration_ p; swingHeight_ := x;
     takeoffPitch_ := takeoffPitch_ p; takeoffRatio_ := takeoffRatio_ p;
     contacts_ := contacts_ p; nextFootstep_ := nextFootstep_ p |}.

Definition with_takeoffPitch (x : Q) (p : t) : t :=
  {| name := name p; nextContact_ := nextContact_ p; prevContact_ := prevContact_ p;
     supportContact_ := supportContact_ p; targetContact_ := targetContact_ p;
     takeoffOffset_ := takeoffOffset_ p;
     comHeight_ := comHeight_ p; doubleSupportDuration_ := doubleSupportDuration_ p;
     finalDSPDuration_ := finalDSPDuration_ p; initDSPDuration_ := initDSPDuration_ p;
     landingPitch_ := landingPitch_ p; landingRatio_ := landingRatio_ p;
     singleSupportDuration_ := singleSupportDuration_ p; swingHeight_ := swingHeight_ p;
     takeoffPitch_ := x; takeoffRatio_ := takeoffRatio_ p;
     contacts_ := contacts_ p; nextFootstep_ := nextFootstep_ p |}.

Definition with_takeoffRatio (x : Q) (p : t) : t :=
  {| name := name p; nextContact_ := nextContact_ p; prevContact_ := prevContact_ p;
     supportContact_ := supportContact_ p; targetContact_ := targetContact_ p;
     takeoffOffset_ := takeoffOffset_ p;
     comHeight_ := comHeight_ p; doubleSupportDuration_ := doubleSupportDuration_ p;
     finalDSPDuration_ := finalDSPDuration_ p; initDSPDuration_ := initDSPDuration_ p;
     landingPitch_ := landingPitch_ p; landingRatio_ := landingRatio_ p;
     singleSupportDuration_ := singleSupportDuration_ p; swingHeight_ := swingHeight_ p;
     takeoffPitch_ := takeoffPitch_ p; takeoffRatio_ := x;
     contacts_ := contacts_ p; nextFootstep_ := nextFootstep_ p |}.

(** The four role contacts, written together. *)
Definition with_roles (next prev support target : Contact) (p : t) : t :=
  {| name := name p; nextContact_ := next; prevContact_ := prev;
     supportContact_ := support; targetContact_ := target;
     takeoffOffset_ := takeoffOffset_ p;
     comHeight_ := comHeight_ p; doubleSupportDuration_ := doubleSupportDuration_ p;
     finalDSPDuration_ := finalDSPDuration_ p; initDSPDuration_ := initDSPDuration_ p;
     landingPitch_ := landingPitch_ p; landingRatio_ := landingRatio_ p;
     singleSupportDuration_ := singleSupportDuration_ p; swingHeight_ := swingHeight_ p;
     takeoffPitch_ := takeoffPitch_ p; takeoffRatio_ := takeoffRatio_ p;
     contacts_ := contacts_ p; nextFootstep_ := nextFootstep_ p |}.

(** *** Timing parameters *)

(** [double comHeight() const] *)
Definition comHeight (p : t) : Q := comHeight_ p.

Definition MIN_COM_HEIGHT : Q := 0.7.
Definition MAX_COM_HEIGHT : Q := 0.85.

(** [void comHeight(double height)] *)
Definition set_comHeight (height : Q) (p : t) : t :=
  with_comHeight (clamp height MIN_COM_HEIGHT MAX_COM_HEIGHT) p.

(** [const std::vector<Contact> & contacts() const] *)
Definition contacts (p : t) : list Contact := contacts_ p.

(** [double doubleSupportDuration() const] *)
Definition doubleSupportDuration (p : t) : Q := doubleSupportDuration_ p.

Definition MIN_DS_DURATION : Q := 0.
Definition MAX_DS_DURATION : Q := 1.

(** [void doubleSupportDuration(double duration)].  [T] is
    [HorizontalMPC::SAMPLING_PERIOD], a non-zero constant of
    [capture_walking/HorizontalMPC.h]; that header is not available, so the
    constant is an argument and [duration / T] is the division of the
    field.  The quotient and the product are exact here; the code rounds
    each to a binary64 value, so that for [T = 0.1] and a request of 0.57 s
    it stores 0.6000000000000001, the binary64 product of 6 and 0.1. *)
Definition set_doubleSupportDuration (T : Q) (duration : Q) (p : t) : t :=
  let duration := std_round (duration / T) * T in
  with_doubleSupportDuration (clamp duration MIN_DS_DURATION MAX_DS_DURATION) p.

(** [double finalDSPDuration() const] *)
Definition finalDSPDuration (p : t) : Q := finalDSPDuration_ p.

(** [void finalDSPDuration(double duration)] *)
Definition set_finalDSPDuration (duration : Q) (p : t) : t :=
  with_finalDSPDuration (clamp duration 0 1.6) p.

(** [double initDSPDuration() const] *)
Definition initDSPDuration (p : t) : Q := initDSPDuration_ p.

(** [void initDSPDuration(double duration)] *)
Definition set_initDSPDuration (duration : Q) (p : t) : t :=
  with_initDSPDuration (clamp duration 0 1.6) p.

(** [double singleSupportDuration() const] *)
Definition singleSupportDuration (p : t) : Q := singleSupportDuration_ p.

Definition MIN_SS_DURATION : Q := 0.
Definition MAX_SS_DURATION : Q := 2.

(** [void singleSupportDuration(double duration)], [T] and the arithmetic
    as above. *)
Definition set_singleSupportDuration (T : Q) (duration : Q) (p : t) : t :=
  let duration := std_round (duration / T) * T in
  with_singleSupportDuration (clamp duration MIN_SS_DURATION MAX_SS_DURATION) p.

(** *** Role contacts *)

(** [const Contact & nextContact() const] *)
Definition nextContact (p : t) : Contact := nextContact_ p.

(** [const Contact & prevContact() const] *)
Definition prevContact (p : t) : Contact := prevContact_ p.

(** [const Contact & supportContact() const] *)
Definition supportContact (p : t) : Contact := supportContact_ p.

(** [const Contact & targetContact() const] *)
Definition targetContact (p : t) : Contact := targetContact_ p.

(** *** Swing parameters *)

(** [double landingPitch() const] *)
Definition landingPitch (p : t) : result Q :=
  if Configuration.has (swingConfig (prevContact_ p)) "landing_pitch"
  then Configuration.as_double (swingConfig (prevContact_ p)) "landing_pitch"
  else Ok (landingPitch_ p).

Definition MIN_LANDING_PITCH : Q := -1.
Definition MAX_LANDING_PITCH : Q := 1.

(** [void landingPitch(double pitch)] *)
Definition set_landingPitch (pitch : Q) (p : t) : t :=
  with_landingPitch (clamp pitch MIN_LANDING_PITCH MAX_LANDING_PITCH) p.

(** [double landingRatio() const] *)
Definition landingRatio (p : t) : result Q :=
  if Configuration.has (swingConfig (supportContact_ p)) "landing_ratio"
  then Configuration.as_double (swingConfig (supportContact_ p)) "landing_ratio"
  else Ok (landingRatio_ p).

(** [void landingRatio(double ratio)] *)
Definition set_landingRatio (ratio : Q) (p : t) : t :=
  with_landingRatio (clamp ratio 0 0.5) p.

(** [double swingHeight() const] *)
Definition swingHeight (p : t) : result Q :=
  if Configuration.has (swingConfig (prevContact_ p)) "height"
  then Configuration.as_double (swingConfig (prevContact_ p)) "height"
  else Ok (swingHeight_ p).

Definition MIN_SWING_FOOT_HEIGHT : Q := 0.
Definition MAX_SWING_FOOT_HEIGHT : Q := 0.25.

(** [void swingHeight(double height)] *)
Definition set_swingHeight (height : Q) (p : t) : t :=
  with_swingHeight (clamp height MIN_SWING_FOOT_HEIGHT MAX_SWING_FOOT_HEIGHT) p.

(** [Eigen::Vector3d takeoffOffset() const] *)
Definition takeoffOffset (p : t) : result Vector3d :=
  if Configuration.has (swingConfig (prevContact_ p)) "takeoff_offset"
  then Configuration.as_Vector3d (swingConfig (prevContact_ p)) "takeoff_offset"
  else Ok (takeoffOffset_ p).

(** [void takeoffOffset(const Eigen::Vector3d & offset)] *)
Definition set_takeoffOffset (offset : Vector3d) (p : t) : t :=
  with_takeoffOffset offset p.

(** [double takeoffPitch() const] *)
Definition takeoffPitch (p : t) : result Q :=
  if Configuration.has (swingConfig (prevContact_ p)) "takeoff_pitch"
  then Configuration.as_double (swingConfig (prevContact_ p)) "takeoff_pitch"
  else Ok (takeoffPitch_ p).

Definition MIN_TAKEOFF_PITCH : Q := -1.
Definition MAX_TAKEOFF_PITCH : Q := 1.

(** [void takeoffPitch(double pitch)] *)
Definition set_takeoffPitch (pitch : Q) (p : t) : t :=
  with_takeoffPitch (clamp pitch MIN_TAKEOFF_PITCH MAX_TAKEOFF_PITCH) p.

(** [double takeoffRatio() const] *)
Definition takeoffRatio (p : t) : result Q :=
  if Configuration.has (swingConfig (supportContact_ p)) "takeoff_ratio"
  then Configuration.as_double (swingConfig (supportContact_ p)) "takeoff_ratio"
  else Ok (takeoffRatio_ p).

(** [void takeoffRatio(double ratio)] *)
Definition set_takeoffRatio (ratio : Q) (p : t) : t :=
  with_takeoffRatio (clamp ratio 0 0.5) p.

End FootstepPlan.

(** ** Controller.h *)

(** [enum class WalkingPatternGeneration] *)
Inductive WalkingPatternGeneration : Type :=
| CaptureProblem
| HorizontalMPC.

(** What [measuredLeftFootRatio] reads of [mc_rbdyn::Robot]: the force
    measured by the force sensor of a given name. *)
Record Robot : Type := {
  forceSensor : string -> Vector3d
}.

Module Controller.

(** The data members of [struct Controller] that are numbers, flags or
    plans, and the observed robot [realRobot()] returns.  The members left
    out (generators, pendulum, observers, stabilizer, preview, publishers)
    are objects of classes whose headers are not available; no inline
    function of [Controller.h] reads or writes them, apart from the
    accessors that return a reference to one. *)
Record t : Type := {
  plan : FootstepPlan.t;
  wpg : WalkingPatternGeneration;
  emergencyStop : bool;
  pauseWalking : bool;
  previewUpdatePeriod : Q;
  real_robot : Robot;
  isInTheAir_ : bool;
  leftFootRatioJumped_ : bool;
  ctlTime_ : Q;
  doubleSupportDurationOverride_ : Q;
  leftFootRatio_ : Q;
  robotMass_ : Q;
  nbCPSFailures_ : Z;
  nbCPSUpdates_ : Z;
  nbHMPCFailures_ : Z;
  nbHMPCUpdates_ : Z;
  nbLogSegments_ : Z
}.

(** The default member initialisers, around a plan, a sampling period and
    an observed robot. *)
Definition init (p : FootstepPlan.t) (T : Q) (r : Robot) : t := {|
  plan := p;
  wpg := CaptureProblem;
  emergencyStop := false;
  pauseWalking := false;
  previewUpdatePeriod := T;
  real_robot := r;
  isInTheAir_ := false;
  leftFootRatioJumped_ := false;
  ctlTime_ := 0;
  doubleSupportDurationOverride_ := -1;
  leftFootRatio_ := 0.5;
  robotMass_ := 0;
  nbCPSFailures_ := 0;
  nbCPSUpdates_ := 0;
  nbHMPCFailures_ := 0;
  nbHMPCUpdates_ := 0;
  nbLogSegments_ := 100
|}.

Definition with_doubleSupportDurationOverride (x : Q) (c : t) : t :=
  {| plan := plan c; wpg := wpg c; emergencyStop := emergencyStop c;
     pauseWalking := pauseWalking c; previewUpdatePeriod := previewUpdatePeriod c;
     real_robot := real_robot c; isInTheAir_ := isInTheAir_ c;
     leftFootRatioJumped_ := leftFootRatioJumped_ c; ctlTime_ := ctlTime_ c;
     doubleSupportDurationOverride_ := x;
     leftFootRatio_ := leftFootRatio_ c; robotMass_ := robotMass_ c;
     nbCPSFailures_ := nbCPSFailures_ c; nbCPSUpdates_ := nbCPSUpdates_ c;
     nbHMPCFailures_ := nbHMPCFailures_ c; nbHMPCUpdates_ := nbHMPCUpdates_ c;
     nbLogSegments_ := nbLogSegments_ c |}.

(** [mc_rbdyn::Robot & realRobot()] *)
Definition realRobot (c : t) : Robot := real_robot c.

(** [double leftFootRatio()] *)
Definition leftFootRatio (c : t) : Q := leftFootRatio_ c.

(** [double measuredLeftFootRatio()]: not declared [const], so it returns
    the controller with the ratio; it writes no member. *)
Definition measuredLeftFootRatio (c : t) : double * t :=
  let leftFootPressure := vz (forceSensor (realRobot c) "LeftFootForceSensor") in
  let rightFootPressure := vz (forceSensor (realRobot c) "RightFootForceSensor") in
  let leftFootPressure := std_max 0 leftFootPressure in
  let rightFootPressure := std_max 0 rightFootPressure in
  (fdiv leftFootPressure (leftFootPressure + rightFootPressure), c).

(** [double doubleSupportDuration()] *)
Definition doubleSupportDuration (c : t) : Q * t :=
  if Qlt_le_dec 0 (doubleSupportDurationOverride_ c)
  then (doubleSupportDurationOverride_ c, with_doubleSupportDurationOverride (-1) c)
  else (FootstepPlan.doubleSupportDuration (plan c), c).

(** [void nextDoubleSupportDuration(double duration)] *)
Definition nextDoubleSupportDuration (duration : Q) (c : t) : t :=
  with_doubleSupportDurationOverride duration c.

(** [n] calls of [doubleSupportDuration()] in a row: the values returned,
    first call first, and the controller after the last call. *)
Fixpoint doubleSupportDuration_calls (n : nat) (c : t) : list Q * t :=
  match n with
  | O => ([], c)
  | S n' =>
      let (d, c') := doubleSupportDuration c in
      let (ds, c'') := doubleSupportDuration_calls n' c' in
      (d :: ds, c'')
  end.

(** [const Contact & nextContact()] and its three siblings *)
Definition nextContact (c : t) : Contact := FootstepPlan.nextContact (plan c).
Definition prevContact (c : t) : Contact := FootstepPlan.prevContact (plan c).
Definition supportContact (c : t) : Contact := FootstepPlan.supportContact (plan c).
Definition targetContact (c : t) : Contact := FootstepPlan.targetContact (plan c).

(** [double singleSupportDuration()] *)
Definition singleSupportDuration (c : t) : Q :=
  FootstepPlan.singleSupportDuration (plan c).

(** [bool isLastSSP()]: true during the last step. *)
Definition isLastSSP (c : t) : bool :=
  (id (targetContact c) >? id (nextContact c))%Z.

(** [bool isLastDSP()]: true after the last step. *)
Definition isLastDSP (c : t) : bool :=
  (id (supportContact c) >? id (targetContact c))%Z.

End Controller.

(** A robot whose two foot sensors measure the vertical forces [fl] (left)
    and [fr] (right); any other sensor measures nothing. *)
Definition robot_with_foot_forces (fl fr : Q) : Robot :=
  {| forceSensor := fun sensor =>
       if String.eqb sensor "LeftFootForceSensor" then {| vx := 0; vy := 0; vz := fl |}
       else if String.eqb sensor "RightFootForceSensor" then {| vx := 0; vy := 0; vz := fr |}
       else Vector3d_Zero |}.

(** ** Footstep sequencing *)

Module Sequencing.

(** Modelled from the spec: the four role pointers of a plan.
    [FootstepPlan.h] only holds the four role contacts and [nextFootstep_];
    what writes them is in [FootstepPlan.cpp], which is not available.  The
    spec (section 3) has "four role pointers — prevContact, supportContact,
    targetContact, nextContact — each an index/reference into contacts_". *)
Record pointers : Type := {
  prev : nat;
  support : nat;
  target : nat;
  next : nat
}.

(** The index of the last of [n] contacts. *)
Definition last_index (n : nat) : nat := n - 1.

(** One position further, the last contact repeated at the end of a plan of
    [n] contacts. *)
Definition advance (n i : nat) : nat := Nat.min (i + 1) (last_index n).

(** Modelled from the spec: [FootstepPlan::reset(startIndex)], declared in
    [FootstepPlan.h] and defined in [FootstepPlan.cpp], which is not
    available.  The spec (section 4.1): it "sets supportContact =
    contacts_[startIndex], prevContact = supportContact, targetContact =
    contacts_[startIndex+1], nextContact = contacts_[startIndex+2] (clamped
    at plan ends by holding the last contact repeated)".  There is no
    [contacts_[startIndex]] in a plan of [startIndex] contacts or less: the
    spec (section 7) has plan operations on an empty or exhausted sequence
    fail, which is [None]. *)
Definition reset (p : FootstepPlan.t) (startIndex : nat) : option pointers :=
  let n := length (FootstepPlan.contacts p) in
  if decide (startIndex < n)%nat then
    Some {| prev := startIndex;
            support := startIndex;
            target := Nat.min (startIndex + 1) (last_index n);
            next := Nat.min (startIndex + 2) (last_index n) |}
  else None.

(** Modelled from the spec: [FootstepPlan::goToNextFootstep()], declared in
    [FootstepPlan.h] and defined in [FootstepPlan.cpp], which is not
    available.  The spec (section 4.1): it "advances all four role pointers
    by one position (fails silently/no-ops at the end of the sequence — the
    last contact becomes a fixed point for all subsequent pointers)". *)
Definition goToNextFootstep (p : FootstepPlan.t) (r : pointers) : pointers :=
  let n := length (FootstepPlan.contacts p) in
  {| prev := advance n (prev r);
     support := advance n (support r);
     target := advance n (target r);
     next := advance n (next r) |}.

(** [reset(startIndex)] followed by [calls] calls of [goToNextFootstep()]. *)
Fixpoint after (p : FootstepPlan.t) (startIndex calls : nat) : option pointers :=
  match calls with
  | O => reset p startIndex
  | S calls' => goToNextFootstep p <$> after p startIndex calls'
  end.

(** The contact a pointer designates. *)
Definition contact_at (p : FootstepPlan.t) (i : nat) : Contact :=
  default Contact_default (FootstepPlan.contacts p !! i).

(** The plan with the four role contacts its pointers designate. *)
Definition plan_at (p : FootstepPlan.t) (r : pointers) : FootstepPlan.t :=
  FootstepPlan.with_roles
    (contact_at p (next r)) (contact_at p (prev r))
    (contact_at p (support r)) (contact_at p (target r)) p.

(** The role pointers stay inside the contact sequence. *)
Definition in_range (p : FootstepPlan.t) (r : pointers) : Prop :=
  let n := length (FootstepPlan.contacts p) in
  (prev r < n /\ support r < n /\ target r < n /\ next r < n)%nat.

End Sequencing.

(** The pointers when the support contact is the [k]-th of [n] contacts. *)
Definition pointers_at (n k : nat) : Sequencing.pointers :=
  {| Sequencing.prev := k;
     Sequencing.support := k;
     Sequencing.target := Nat.min (k + 1) (Sequencing.last_index n);
     Sequencing.next := Nat.min (k + 2) (Sequencing.last_index n) |}.

(** No role contact of [q] has a larger id than the same role contact of
    [q']. *)
Definition role_ids_le (q q' : FootstepPlan.t) : Prop :=
  (id (FootstepPlan.prevContact q) <= id (FootstepPlan.prevContact q') /\
   id (FootstepPlan.supportContact q) <= id (FootstepPlan.supportContact q') /\
   id (FootstepPlan.targetContact q) <= id (FootstepPlan.targetContact q') /\
   id (FootstepPlan.nextContact q) <= id (FootstepPlan.nextContact q'))%Z.

(** No role contact of [q] has an id larger than [m]. *)
Definition role_ids_at_most (q : FootstepPlan.t) (m : Z) : Prop :=
  (id (FootstepPlan.prevContact q) <= m /\
   id (FootstepPlan.supportContact q) <= m /\
   id (FootstepPlan.targetContact q) <= m /\
   id (FootstepPlan.nextContact q) <= m)%Z.

(** Contact ids do not decrease along the plan ("monotonic, plan order"). *)
Definition monotone_ids (cs : list Contact) : Prop :=
  forall (i j : nat) (ci cj : Contact),
    (i <= j)%nat -> cs !! i = Some ci -> cs !! j = Some cj -> (id ci <= id cj)%Z.

(** Contact ids count the contacts: each is one more than the id before. *)
Definition consecutive_ids (cs : list Contact) : Prop :=
  forall (i : nat) (ci cj : Contact),
    cs !! i = Some ci -> cs !! (i + 1)%nat = Some cj -> id cj = (id ci + 1)%Z.

(** The plan of the spec's scenario: four contacts L0, R1, L2, R3. *)
Definition four_step_plan : FootstepPlan.t :=
  {| FootstepPlan.name := "L0 R1 L2 R3";
     FootstepPlan.nextContact_ := Contact_default;
     FootstepPlan.prevContact_ := Contact_default;
     FootstepPlan.supportContact_ := Contact_default;
     FootstepPlan.targetContact_ := Contact_default;
     FootstepPlan.takeoffOffset_ := Vector3d_Zero;
     FootstepPlan.comHeight_ := 0.78;
     FootstepPlan.doubleSupportDuration_ := 0.2;
     FootstepPlan.finalDSPDuration_ := 0.6;
     FootstepPlan.initDSPDuration_ := 0.6;
     FootstepPlan.landingPitch_ := 0;
     FootstepPlan.landingRatio_ := 0.05;
     FootstepPlan.singleSupportDuration_ := 0.8;
     FootstepPlan.swingHeight_ := 0.04;
     FootstepPlan.takeoffPitch_ := 0;
     FootstepPlan.takeoffRatio_ := 0.05;
     FootstepPlan.contacts_ :=
       [ {| id := 0; swingConfig := ∅ |}; {| id := 1; swingConfig := ∅ |};
         {| id := 2; swingConfig := ∅ |}; {| id := 3; swingConfig := ∅ |} ];
     FootstepPlan.nextFootstep_ := 0 |}.

(** ** What the claims about setters say *)

(** Two plans with the same members, the durations and other numbers being
    compared as rationals. *)
Definition same_plan (p q : FootstepPlan.t) : Prop :=
  FootstepPlan.name p = FootstepPlan.name q /\
  FootstepPlan.nextContact_ p = FootstepPlan.nextContact_ q /\
  FootstepPlan.prevContact_ p = FootstepPlan.prevContact_ q /\
  FootstepPlan.supportContact_ p = FootstepPlan.supportContact_ q /\
  FootstepPlan.targetContact_ p = FootstepPlan.targetContact_ q /\
  FootstepPlan.takeoffOffset_ p = FootstepPlan.takeoffOffset_ q /\
  FootstepPlan.comHeight_ p == FootstepPlan.comHeight_ q /\
  FootstepPlan.doubleSupportDuration_ p == FootstepPlan.doubleSupportDuration_ q /\
  FootstepPlan.finalDSPDuration_ p == FootstepPlan.finalDSPDuration_ q /\
  FootstepPlan.initDSPDuration_ p == FootstepPlan.initDSPDuration_ q /\
  FootstepPlan.landingPitch_ p == FootstepPlan.landingPitch_ q /\
  FootstepPlan.landingRatio_ p == FootstepPlan.landingRatio_ q /\
  FootstepPlan.singleSupportDuration_ p == FootstepPlan.singleSupportDuration_ q /\
  FootstepPlan.swingHeight_ p == FootstepPlan.swingHeight_ q /\
  FootstepPlan.takeoffPitch_ p == FootstepPlan.takeoffPitch_ q /\
  FootstepPlan.takeoffRatio_ p == FootstepPlan.takeoffRatio_ q /\
  FootstepPlan.contacts_ p = FootstepPlan.contacts_ q /\
  FootstepPlan.nextFootstep_ p = FootstepPlan.nextFootstep_ q.

(** The setter [set] of the member read by [get] clamps to [lo, hi]: it
    stores the clamped input, which lies in the range, is the boundary
    nearest to an input outside the range, and is left where it is by the
    setter applied to it again. *)
Definition clamps_to (set : Q -> FootstepPlan.t -> FootstepPlan.t)
    (get : FootstepPlan.t -> Q) (lo hi : Q) : Prop :=
  forall (v : Q) (p : FootstepPlan.t),
    get (set v p) = clamp v lo hi /\
    lo <= get (set v p) <= hi /\
    (hi < v -> get (set v p) = hi) /\
    (v < lo -> get (set v p) = lo) /\
    set (get (set v p)) (set v p) = set v p.

(** The same for a setter that rounds to the sampling grid before it
    clamps.  What it stores is not the clamped input any more; it still
    lies in the range, is the boundary nearest to an input outside the
    range, and is stored again by the setter applied to it.  The numbers are
    compared as rationals. *)
Definition rounds_and_clamps_to (set : Q -> FootstepPlan.t -> FootstepPlan.t)
    (get : FootstepPlan.t -> Q) (lo hi : Q) : Prop :=
  forall (v : Q) (p : FootstepPlan.t),
    lo <= get (set v p) <= hi /\
    (hi < v -> get (set v p) == hi) /\
    (v < lo -> get (set v p) == lo) /\
    same_plan (set (get (set v p)) (set v p)) (set v p).

(** The binary64 value nearest to one tenth, 0.1000000000000000055...: what
    a [constexpr double] initialised with the literal [0.1] holds. *)
Definition binary64_tenth : Q := 3602879701896397 # 36028797018963968.

(** ** Sequences of setter calls *)

(** A call of one of the eleven setters of [FootstepPlan.h]. *)
Inductive setter_call : Type :=
| Call_comHeight (height : Q)
| Call_doubleSupportDuration (duration : Q)
| Call_finalDSPDuration (duration : Q)
| Call_initDSPDuration (duration : Q)
| Call_landingPitch (pitch : Q)
| Call_landingRatio (ratio : Q)
| Call_singleSupportDuration (duration : Q)
| Call_swingHeight (height : Q)
| Call_takeoffOffset (offset : Vector3d)
| Call_takeoffPitch (pitch : Q)
| Call_takeoffRatio (ratio : Q).

(** The plan after a call, the sampling period being [T]. *)
Definition call (T : Q) (c : setter_call) (p : FootstepPlan.t) : FootstepPlan.t :=
  match c with
  | Call_comHeight height => FootstepPlan.set_comHeight height p
  | Call_doubleSupportDuration duration => FootstepPlan.set_doubleSupportDuration T duration p
  | Call_finalDSPDuration duration => FootstepPlan.set_finalDSPDuration duration p
  | Call_initDSPDuration duration => FootstepPlan.set_initDSPDuration duration p
  | Call_landingPitch pitch => FootstepPlan.set_landingPitch pitch p
  | Call_landingRatio ratio => FootstepPlan.set_landingRatio ratio p
  | Call_singleSupportDuration duration => FootstepPlan.set_singleSupportDuration T duration p
  | Call_swingHeight height => FootstepPlan.set_swingHeight height p
  | Call_takeoffOffset offset => FootstepPlan.set_takeoffOffset offset p
  | Call_takeoffPitch pitch => FootstepPlan.set_takeoffPitch pitch p
  | Call_takeoffRatio ratio => FootstepPlan.set_takeoffRatio ratio p
  end.

(** The plan after a sequence of calls, first call first. *)
Fixpoint calls (T : Q) (cs : list setter_call) (p : FootstepPlan.t) : FootstepPlan.t :=
  match cs with
  | [] => p
  | c :: cs' => calls T cs' (call T c p)
  end.

(** Every scalar parameter of the plan is in the range its setter clamps
    to. *)
Definition within_ranges (p : FootstepPlan.t) : Prop :=
  0.7 <= FootstepPlan.comHeight_ p <= 0.85 /\
  0 <= FootstepPlan.doubleSupportDuration_ p <= 1 /\
  0 <= FootstepPlan.finalDSPDuration_ p <= 1.6 /\
  0 <= FootstepPlan.initDSPDuration_ p <= 1.6 /\
  -1 <= FootstepPlan.landingPitch_ p <= 1 /\
  0 <= FootstepPlan.landingRatio_ p <= 0.5 /\
  0 <= FootstepPlan.singleSupportDuration_ p <= 2 /\
  0 <= FootstepPlan.swingHeight_ p <= 0.25 /\
  -1 <= FootstepPlan.takeoffPitch_ p <= 1 /\
  0 <= FootstepPlan.takeoffRatio_ p <= 0.5.

(** The double- and single-support durations of the plan are on the
    sampling grid of period [T]. *)
Definition on_grid (T : Q) (p : FootstepPlan.t) : Prop :=
  multiple_of T (FootstepPlan.doubleSupportDuration_ p) /\
  multiple_of T (FootstepPlan.singleSupportDuration_ p).

(** ** What the claim about swing getters says *)

(** [getter] looks [key] up in the swing overrides of the role contact
    [contact] and falls back on the plan's member [default]: an override
    entry [entry v] under the key is what it returns, and without an entry
    under the key it returns the member. *)
Definition shadows {A : Type} (getter : FootstepPlan.t -> result A)
    (contact : FootstepPlan.t -> Contact) (key : string)
    (entry : A -> ConfigValue) (default : FootstepPlan.t -> A) : Prop :=
  forall p : FootstepPlan.t,
    (forall v : A, swingConfig (contact p) !! key = Some (entry v) -> getter p = Ok v) /\
    (swingConfig (contact p) !! key = None -> getter p = Ok (default p)).

(** A plan in the middle of a step: the contact the swing foot left
    overrides the swing height and the takeoff offset, the support contact
    overrides the landing ratio. *)
Definition plan_with_overrides : FootstepPlan.t :=
  FootstepPlan.with_roles
    {| id := 3; swingConfig := ∅ |}
    {| id := 0;
       swingConfig :=
         {[ "height" := CfgNumber 0.1;
            "takeoff_offset" := CfgVector {| vx := -0.03; vy := 0; vz := 0 |} ]} |}
    {| id := 1; swingConfig := {[ "landing_ratio" := CfgNumber 0.2 ]} |}
    {| id := 2; swingConfig := ∅ |}
    FootstepPlan.init.

(** ** What the further properties of setters and getters say *)

(** The two calls are calls of the same setter. *)
Definition same_setter (c1 c2 : setter_call) : bool :=
  match c1, c2 with
  | Call_comHeight _, Call_comHeight _
  | Call_doubleSupportDuration _, Call_doubleSupportDuration _
  | Call_finalDSPDuration _, Call_finalDSPDuration _
  | Call_initDSPDuration _, Call_initDSPDuration _
  | Call_landingPitch _, Call_landingPitch _
  | Call_landingRatio _, Call_landingRatio _
  | Call_singleSupportDuration _, Call_singleSupportDuration _
  | Call_swingHeight _, Call_swingHeight _
  | Call_takeoffOffset _, Call_takeoffOffset _
  | Call_takeoffPitch _, Call_takeoffPitch _
  | Call_takeoffRatio _, Call_takeoffRatio _ => true
  | _, _ => false
  end.

(** A larger argument of the setter [set] never stores a smaller value of
    the member read by [get]. *)
Definition monotone_setter (set : Q -> FootstepPlan.t -> FootstepPlan.t)
    (get : FootstepPlan.t -> Q) : Prop :=
  forall (v w : Q) (p : FootstepPlan.t), v <= w -> get (set v p) <= get (set w p).

(** What the swing getter [getter] returns after the setter [set] of the
    plan's member: the clamped argument when the role contact [contact] has
    no entry under [key], and the override, as before the call, when it has
    one. *)
Definition set_then_get (getter : FootstepPlan.t -> result Q)
    (set : Q -> FootstepPlan.t -> FootstepPlan.t)
    (contact : FootstepPlan.t -> Contact) (key : string) (lo hi : Q) : Prop :=
  forall (v : Q) (p : FootstepPlan.t),
    (swingConfig (contact p) !! key = None -> getter (set v p) = Ok (clamp v lo hi)) /\
    (forall o : Q, swingConfig (contact p) !! key = Some (CfgNumber o) ->
       getter (set v p) = Ok o /\ getter p = Ok o).

(** What the setter [set] does with the value [v] the swing getter [getter]
    returned: without an entry under [key] and with the member in its range
    the plan is as it was; with an override under [key] the member becomes
    the clamped override. *)
Definition get_then_set (getter : FootstepPlan.t -> result Q)
    (set : Q -> FootstepPlan.t -> FootstepPlan.t) (member : FootstepPlan.t -> Q)
    (contact : FootstepPlan.t -> Contact) (key : string) (lo hi : Q) : Prop :=
  forall (p : FootstepPlan.t) (v : Q),
    getter p = Ok v ->
    (swingConfig (contact p) !! key = None -> lo <= member p <= hi -> set v p = p) /\
    (forall o : Q, swingConfig (contact p) !! key = Some (CfgNumber o) ->
       member (set v p) = clamp o lo hi).

(** [getter] throws exactly when the role contact [contact] has an entry
    under [key] that is not of the getter's type. *)
Definition throws_on_other_type {A : Type} (getter : FootstepPlan.t -> result A)
    (contact : FootstepPlan.t -> Contact) (key : string)
    (entry : A -> ConfigValue) : Prop :=
  forall p : FootstepPlan.t,
    getter p = ConfigurationException <->
    exists e : ConfigValue,
      swingConfig (contact p) !! key = Some e /\ forall v : A, e <> entry v.

(** ** What the further properties of the controller say *)

(** The vertical forces [measuredLeftFootRatio] reads. *)
Definition leftFootForce (c : Controller.t) : Q :=
  vz (forceSensor (Controller.realRobot c) "LeftFootForceSensor").

Definition rightFootForce (c : Controller.t) : Q :=
  vz (forceSensor (Controller.realRobot c) "RightFootForceSensor").

(** Calls of [nextDoubleSupportDuration] in a row, first call first. *)
Fixpoint nextDoubleSupportDuration_calls (ds : list Q) (c : Controller.t) : Controller.t :=
  match ds with
  | [] => c
  | d :: ds' => nextDoubleSupportDuration_calls ds' (Controller.nextDoubleSupportDuration d c)
  end.

(** * Properties *)

(** ** Numbers *)

Lemma std_max_ge_l (a b : Q) : a <= std_max a b.
Proof. unfold std_max. destruct (Qlt_le_dec a b); lra. Qed.

Lemma fdiv_nonzero (x y : Q) : ~ y == 0 -> fdiv x y = Finite (x / y).
Proof.
  intros Hy. unfold fdiv.
  destruct (Qeq_bool y 0) eqn:E; [|reflexivity].
  apply Qeq_bool_eq in E. contradiction.
Qed.

Lemma fdiv_zero_zero (x y : Q) : x == 0 -> y == 0 -> fdiv x y = NaN.
Proof.
  intros Hx Hy. unfold fdiv.
  apply Qeq_bool_iff in Hx, Hy. now rewrite Hx, Hy.
Qed.

(** A non-negative part of a positive whole is a fraction in [0, 1]. *)
Lemma share_in_unit_interval (l r : Q) :
  0 <= l -> 0 <= r -> 0 < l + r -> 0 <= l / (l + r) <= 1.
Proof.
  intros Hl Hr Hs. split.
  - apply Qle_shift_div_l; lra.
  - apply Qle_shift_div_r; lra.
Qed.

(** ** Controller: the measured left-foot ratio *)

Section MeasuredLeftFootRatio.

Variable c : Controller.t.

Let Fl : Q := vz (forceSensor (Controller.realRobot c) "LeftFootForceSensor").
Let Fr : Q := vz (forceSensor (Controller.realRobot c) "RightFootForceSensor").

Lemma measuredLeftFootRatio_unfold :
  Controller.measuredLeftFootRatio c
  = (fdiv (std_max 0 Fl) (std_max 0 Fl + std_max 0 Fr), c).
Proof. reflexivity. Qed.

Lemma clamped_forces_zero_iff :
  std_max 0 Fl + std_max 0 Fr == 0 <-> Fl <= 0 /\ Fr <= 0.
Proof.
  unfold std_max.
  destruct (Qlt_le_dec 0 Fl), (Qlt_le_dec 0 Fr); split; try lra.
  all: intros [? ?]; lra.
Qed.

End MeasuredLeftFootRatio.

(** C1, as the code has it.  For every pair of measured vertical foot
    forces [Fl], [Fr], [measuredLeftFootRatio] divides [max(0,Fl)] by
    [max(0,Fl) + max(0,Fr)] and writes no member of the controller.  When
    one of the clamped forces is positive the result is that finite quotient
    and lies in [0, 1].  When both are zero (neither measured force is
    positive) the function itself detects nothing: it evaluates 0/0 and
    returns NaN, the stored ratio and the jump flag being what they were. *)
Theorem measuredLeftFootRatio_spec (c : Controller.t) :
  let Fl := vz (forceSensor (Controller.realRobot c) "LeftFootForceSensor") in
  let Fr := vz (forceSensor (Controller.realRobot c) "RightFootForceSensor") in
  let l := std_max 0 Fl in
  let r := std_max 0 Fr in
  snd (Controller.measuredLeftFootRatio c) = c /\
  (0 < l + r ->
     fst (Controller.measuredLeftFootRatio c) = Finite (l / (l + r)) /\
     0 <= l / (l + r) <= 1) /\
  (Fl <= 0 -> Fr <= 0 ->
     fst (Controller.measuredLeftFootRatio c) = NaN).
Proof.
  intros Fl Fr l r. rewrite measuredLeftFootRatio_unfold. cbn [fst snd].
  fold Fl Fr. fold l r.
  split; [reflexivity|]. split.
  - intros Hs. split.
    + apply fdiv_nonzero. lra.
    + apply share_in_unit_interval; try assumption; apply std_max_ge_l.
  - intros Hl Hr.
    assert (Hz : l + r == 0) by (apply clamped_forces_zero_iff; split; assumption).
    apply fdiv_zero_zero; [|exact Hz].
    pose proof (std_max_ge_l 0 Fl). pose proof (std_max_ge_l 0 Fr).
    fold l in H. fold r in H0. lra.
Qed.

(** With 300 N under the left foot and 100 N under the right one the ratio
    is 300 / 400, inside [0, 1]. *)
Lemma measuredLeftFootRatio_spec_witness :
  let c := Controller.init FootstepPlan.init 0.1 (robot_with_foot_forces 300 100) in
  fst (Controller.measuredLeftFootRatio c) = Finite (300 / (300 + 100)) /\
  0 <= 300 / (300 + 100) <= 1.
Proof.
  intros c.
  destruct (measuredLeftFootRatio_spec c) as (_ & Hpos & _).
  apply Hpos. vm_compute. reflexivity.
Defined.

(** C1, the counterexample.  A controller fresh from its initialisers whose
    two foot sensors both read 0 N: the ratio computation returns NaN, which
    is not finite, and the jump flag is still unset after the call. *)
Lemma measuredLeftFootRatio_zero_forces :
  let c := Controller.init FootstepPlan.init 0.1 (robot_with_foot_forces 0 0) in
  fst (Controller.measuredLeftFootRatio c) = NaN /\
  isfinite (fst (Controller.measuredLeftFootRatio c)) = false /\
  Controller.leftFootRatioJumped_ (snd (Controller.measuredLeftFootRatio c)) = false /\
  Controller.leftFootRatio_ (snd (Controller.measuredLeftFootRatio c)) = 0.5.
Proof. vm_compute. repeat split; reflexivity. Qed.

(** ** Controller: the one-shot override of the double-support duration *)

Lemma doubleSupportDuration_no_override (c : Controller.t) :
  Controller.doubleSupportDurationOverride_ c <= 0 ->
  Controller.doubleSupportDuration c
  = (FootstepPlan.doubleSupportDuration (Controller.plan c), c).
Proof.
  intros H. unfold Controller.doubleSupportDuration.
  destruct (Qlt_le_dec 0 (Controller.doubleSupportDurationOverride_ c)); [lra|reflexivity].
Qed.

Lemma doubleSupportDuration_calls_no_override (n : nat) (c : Controller.t) :
  Controller.doubleSupportDurationOverride_ c <= 0 ->
  Controller.doubleSupportDuration_calls n c
  = (replicate n (FootstepPlan.doubleSupportDuration (Controller.plan c)), c).
Proof.
  intros H. induction n as [|n IH]; [reflexivity|].
  cbn [Controller.doubleSupportDuration_calls replicate].
  rewrite doubleSupportDuration_no_override by exact H.
  now rewrite IH.
Qed.

(** C10.  After [nextDoubleSupportDuration(d)] with [d > 0] the next
    [doubleSupportDuration()] returns [d] and leaves the override at -1,
    every other member untouched, so that any number of further calls return
    the plan's double-support duration and change nothing.  After
    [nextDoubleSupportDuration(d)] with [d <= 0] every call returns the
    plan's duration: such an override never takes effect. *)
Theorem doubleSupportDuration_override_one_shot (c : Controller.t) (d : Q) :
  let c1 := Controller.nextDoubleSupportDuration d c in
  let c2 := Controller.with_doubleSupportDurationOverride (-1) c in
  let planned := FootstepPlan.doubleSupportDuration (Controller.plan c) in
  (0 < d ->
     Controller.doubleSupportDuration c1 = (d, c2) /\
     forall n, Controller.doubleSupportDuration_calls n c2 = (replicate n planned, c2)) /\
  (d <= 0 ->
     forall n, Controller.doubleSupportDuration_calls n c1 = (replicate n planned, c1)).
Proof.
  intros c1 c2 planned. split.
  - intros Hd. split.
    + unfold Controller.doubleSupportDuration, c1. cbn.
      destruct (Qlt_le_dec 0 d); [reflexivity|lra].
    + intros n. apply (doubleSupportDuration_calls_no_override n c2). cbn. lra.
  - intros Hd n. apply (doubleSupportDuration_calls_no_override n c1). cbn. exact Hd.
Qed.

(** An override of 0.35 s on a fresh controller: returned once, then the
    plan's 0.2 s three times in a row. *)
Lemma doubleSupportDuration_override_one_shot_witness :
  let c := Controller.init FootstepPlan.init 0.1 (robot_with_foot_forces 300 100) in
  let c1 := Controller.nextDoubleSupportDuration 0.35 c in
  let c2 := Controller.with_doubleSupportDurationOverride (-1) c in
  Controller.doubleSupportDuration c1 = (0.35, c2) /\
  Controller.doubleSupportDuration_calls 3 c2 = ([0.2; 0.2; 0.2], c2).
Proof.
  intros c c1 c2.
  destruct (doubleSupportDuration_override_one_shot c 0.35) as [Hpos _].
  destruct Hpos as [H1 H2]; [vm_compute; reflexivity|].
  split; [exact H1|exact (H2 3%nat)].
Defined.

(** ** Rounding and clamping *)

Lemma Qfloor_bounds (x : Q) : x - 1 < inject_Z (Qfloor x) <= x.
Proof.
  pose proof (Qfloor_le x) as Hle. pose proof (Qlt_floor x) as Hlt.
  rewrite inject_Z_plus in Hlt. change (inject_Z 1) with 1 in Hlt. lra.
Qed.

Lemma Qceiling_bounds (x : Q) : x <= inject_Z (Qceiling x) < x + 1.
Proof.
  pose proof (Qle_ceiling x) as Hle. pose proof (Qceiling_lt x) as Hlt.
  unfold Z.sub in Hlt. rewrite inject_Z_plus in Hlt.
  change (inject_Z (- (1))) with (- (1)) in Hlt. lra.
Qed.

(** Integers that are less than one apart are equal. *)
Lemma inject_Z_close (k m : Z) :
  inject_Z k - 1 < inject_Z m < inject_Z k + 1 -> m = k.
Proof.
  intros [Hlo Hhi].
  assert (Hlo' : inject_Z (k - 1) < inject_Z m).
  { unfold Z.sub. rewrite inject_Z_plus. change (inject_Z (- (1))) with (- (1)). lra. }
  assert (Hhi' : inject_Z m < inject_Z (k + 1)).
  { rewrite inject_Z_plus. change (inject_Z 1) with 1. lra. }
  rewrite <- Zlt_Qlt in Hlo', Hhi'. lia.
Qed.

Lemma std_round_is_integer (x : Q) : exists k : Z, std_round x = inject_Z k.
Proof. unfold std_round. eexists. reflexivity. Qed.

Lemma std_round_half (x : Q) : - 0.5 <= std_round x - x <= 0.5.
Proof.
  unfold std_round. destruct (Qlt_le_dec x 0) as [Hneg|Hpos].
  - pose proof (Qceiling_bounds (x - 0.5)). lra.
  - pose proof (Qfloor_bounds (x + 0.5)). lra.
Qed.

(** An integer is its own rounding. *)
Lemma std_round_integer (x : Q) (k : Z) : x == inject_Z k -> std_round x = inject_Z k.
Proof.
  intros Hx. pose proof (std_round_half x) as Hhalf.
  destruct (std_round_is_integer x) as [m Hm]. rewrite Hm in *.
  f_equal. apply inject_Z_close. lra.
Qed.

Lemma clamp_in_range (v lo hi : Q) : lo <= hi -> lo <= clamp v lo hi <= hi.
Proof.
  intros H. unfold clamp.
  destruct (Qlt_le_dec hi v); [lra|]. destruct (Qlt_le_dec v lo); lra.
Qed.

Lemma clamp_above (v lo hi : Q) : hi < v -> clamp v lo hi = hi.
Proof.
  intros H. unfold clamp. destruct (Qlt_le_dec hi v); [reflexivity|lra].
Qed.

Lemma clamp_below (v lo hi : Q) : lo <= hi -> v < lo -> clamp v lo hi = lo.
Proof.
  intros H Hv. unfold clamp.
  destruct (Qlt_le_dec hi v); [lra|]. destruct (Qlt_le_dec v lo); [reflexivity|lra].
Qed.

Lemma clamp_inside (v lo hi : Q) : lo <= v <= hi -> clamp v lo hi = v.
Proof.
  intros H. unfold clamp.
  destruct (Qlt_le_dec hi v); [lra|]. destruct (Qlt_le_dec v lo); [lra|reflexivity].
Qed.

Lemma clamp_idempotent (v lo hi : Q) :
  lo <= hi -> clamp (clamp v lo hi) lo hi = clamp v lo hi.
Proof. intros H. apply clamp_inside, clamp_in_range, H. Qed.

Lemma clamp_comp (v w lo hi : Q) : v == w -> clamp v lo hi == clamp w lo hi.
Proof.
  intros H. unfold clamp.
  destruct (Qlt_le_dec hi v), (Qlt_le_dec hi w); try lra.
  destruct (Qlt_le_dec v lo), (Qlt_le_dec w lo); lra.
Qed.

Lemma std_round_monotone (x y : Q) : x <= y -> std_round x <= std_round y.
Proof.
  intros Hxy.
  pose proof (std_round_half x) as Hx. pose proof (std_round_half y) as Hy.
  destruct (std_round_is_integer x) as [m Hm].
  destruct (std_round_is_integer y) as [k Hk].
  unfold std_round in Hm, Hk |- *.
  destruct (Qlt_le_dec x 0) as [Hx0|Hx0], (Qlt_le_dec y 0) as [Hy0|Hy0].
  - rewrite <- Zle_Qle. apply Qceiling_resp_le. lra.
  - unfold std_round in Hx, Hy.
    destruct (Qlt_le_dec x 0); [|lra]. destruct (Qlt_le_dec y 0); [lra|].
    assert (Hlo : inject_Z (Qceiling (x - 0.5)) < inject_Z 1)
      by (change (inject_Z 1) with 1; lra).
    assert (Hhi : inject_Z (-1) < inject_Z (Qfloor (y + 0.5)))
      by (change (inject_Z (-1)) with (-1); lra).
    rewrite <- Zlt_Qlt in Hlo, Hhi. rewrite <- Zle_Qle. lia.
  - lra.
  - rewrite <- Zle_Qle. apply Qfloor_resp_le. lra.
Qed.

Lemma clamp_monotone (v w lo hi : Q) :
  lo <= hi -> v <= w -> clamp v lo hi <= clamp w lo hi.
Proof.
  intros Hr Hvw. unfold clamp.
  destruct (Qlt_le_dec hi v), (Qlt_le_dec hi w); try lra;
    destruct (Qlt_le_dec v lo), (Qlt_le_dec w lo); lra.
Qed.




(** A value at or beyond a bound is clamped to the bound. *)
Lemma clamp_at_least (x lo hi : Q) : lo <= hi -> hi <= x -> clamp x lo hi == hi.
Proof.
  intros Hr Hx. unfold clamp.
  destruct (Qlt_le_dec hi x); [reflexivity|]. destruct (Qlt_le_dec x lo); lra.
Qed.

Lemma clamp_at_most (x lo hi : Q) : lo <= hi -> x <= lo -> clamp x lo hi == lo.
Proof.
  intros Hr Hx. unfold clamp.
  destruct (Qlt_le_dec hi x); [lra|]. destruct (Qlt_le_dec x lo); lra.
Qed.

(** ** The sampling grid *)

(** In the exact arithmetic of the model the rounded request is a whole
    number of periods; the binary64 product of the code need not be. *)
Lemma round_to_period_multiple (T d : Q) : multiple_of T (std_round (d / T) * T).
Proof.
  destruct (std_round_is_integer (d / T)) as [k Hk].
  exists k. rewrite Hk. reflexivity.
Qed.

(** Rounding to the grid leaves a value of the grid where it is. *)
Lemma round_to_period_fixes_multiples (T w : Q) :
  0 < T -> multiple_of T w -> std_round (w / T) * T == w.
Proof.
  intros HT [k Hk].
  assert (Hq : w / T == inject_Z k) by (rewrite Hk; field; lra).
  rewrite (std_round_integer _ _ Hq). rewrite Hk. reflexivity.
Qed.

Lemma round_to_period_monotone (T v w : Q) :
  0 < T -> v <= w -> std_round (v / T) * T <= std_round (w / T) * T.
Proof.
  intros HT Hvw. apply Qmult_le_compat_r; [|lra].
  apply std_round_monotone. unfold Qdiv.
  apply Qmult_le_compat_r; [exact Hvw|].
  apply Qlt_le_weak, Qinv_lt_0_compat, HT.
Qed.


(** Zero and half a period: the first is on the grid, the second is
    rounded up to one period. *)
Lemma round_to_period_zero (T : Q) : 0 < T -> std_round (0 / T) * T == 0.
Proof.
  intros HT.
  assert (H : 0 / T == inject_Z 0) by (change (inject_Z 0) with 0; field; lra).
  rewrite (std_round_integer _ _ H). change (inject_Z 0) with 0. ring.
Qed.


(** What rounding to the grid and then clamping to [lo, hi] stores, when
    rounding takes neither bound into the range: a value of the range, the
    bound for an input beyond it, and the same again from what was
    stored. *)
Lemma round_then_clamp (T v lo hi : Q) :
  0 < T -> lo <= hi ->
  std_round (lo / T) * T <= lo -> hi <= std_round (hi / T) * T ->
  let w := clamp (std_round (v / T) * T) lo hi in
  lo <= w <= hi /\
  (hi < v -> w == hi) /\
  (v < lo -> w == lo) /\
  clamp (std_round (w / T) * T) lo hi == w.
Proof.
  intros HT Hr Hlo Hhi w. split; [apply clamp_in_range, Hr|].
  split; [|split].
  - intros Hv. apply clamp_at_least; [exact Hr|].
    apply Qle_trans with (std_round (hi / T) * T); [exact Hhi|].
    apply round_to_period_monotone; [exact HT|lra].
  - intros Hv. apply clamp_at_most; [exact Hr|].
    apply Qle_trans with (std_round (lo / T) * T); [|exact Hlo].
    apply round_to_period_monotone; [exact HT|lra].
  - unfold w.
    destruct (Qlt_le_dec hi (std_round (v / T) * T)) as [Habove|Hle].
    + rewrite (clamp_above _ lo hi Habove). apply clamp_at_least; assumption.
    + destruct (Qlt_le_dec (std_round (v / T) * T) lo) as [Hbelow|Hge].
      * rewrite (clamp_below _ lo hi Hr Hbelow). apply clamp_at_most; assumption.
      * rewrite (clamp_inside _ lo hi (conj Hge Hle)).
        rewrite (clamp_comp _ (std_round (v / T) * T)).
        -- rewrite clamp_inside by (split; assumption). reflexivity.
        -- apply round_to_period_fixes_multiples;
             [exact HT|apply round_to_period_multiple].
Qed.

(** ** FootstepPlan: the duration setters *)




(** The same for any sampling period: a value that [initDSPDuration] and
    [finalDSPDuration] store off the grid exists whatever the period is. *)
Lemma initDSPDuration_off_grid_any_period (T : Q) (p : FootstepPlan.t) :
  0 < T ->
  exists d,
    ~ multiple_of T (FootstepPlan.initDSPDuration (FootstepPlan.set_initDSPDuration d p)) /\
    ~ multiple_of T (FootstepPlan.finalDSPDuration (FootstepPlan.set_finalDSPDuration d p)).
Proof.
  intros HT.
  assert (Hhalf : forall k : Z, ~ inject_Z k == 0.5).
  { intros k Hk. unfold Qeq in Hk. cbn in Hk. lia. }
  destruct (Qlt_le_dec 3.2 T) as [Hbig|Hsmall].
  - exists 1.6.
    assert (Hno : ~ multiple_of T (clamp 1.6 0 1.6)).
    { rewrite clamp_inside by lra. intros [k Hk].
      destruct (Z_le_gt_dec k 0) as [Hk0|Hk0].
      - rewrite Zle_Qle in Hk0. change (inject_Z 0) with 0 in Hk0.
        assert (inject_Z k * T <= 0 * T) by (apply Qmult_le_compat_r; lra). lra.
      - assert (Hk1 : (1 <= k)%Z) by lia.
        rewrite Zle_Qle in Hk1. change (inject_Z 1) with 1 in Hk1.
        assert (1 * T <= inject_Z k * T) by (apply Qmult_le_compat_r; lra). lra. }
    split; exact Hno.
  - exists (0.5 * T).
    assert (Hno : ~ multiple_of T (clamp (0.5 * T) 0 1.6)).
    { rewrite clamp_inside by lra. intros [k Hk].
      apply (Hhalf k). apply (Qmult_inj_r _ _ T); lra. }
    split; exact Hno.
Qed.

(** ** FootstepPlan: swing getters *)

Lemma has_entry (c : gmap string ConfigValue) (key : string) (v : ConfigValue) :
  c !! key = Some v -> Configuration.has c key = true.
Proof.
  intros H. unfold Configuration.has. rewrite H.
  apply bool_decide_eq_true_2. eexists. reflexivity.
Qed.

Lemma has_no_entry (c : gmap string ConfigValue) (key : string) :
  c !! key = None -> Configuration.has c key = false.
Proof.
  intros H. unfold Configuration.has. rewrite H.
  apply bool_decide_eq_false_2. intros [v Hv]. discriminate Hv.
Qed.

Lemma shadows_double (contact : FootstepPlan.t -> Contact) (key : string)
    (default : FootstepPlan.t -> Q) :
  shadows
    (fun p =>
       if Configuration.has (swingConfig (contact p)) key
       then Configuration.as_double (swingConfig (contact p)) key
       else Ok (default p))
    contact key CfgNumber default.
Proof.
  intros p. split.
  - intros v Hv. rewrite (has_entry _ _ _ Hv).
    unfold Configuration.as_double. now rewrite Hv.
  - intros Hnone. now rewrite (has_no_entry _ _ Hnone).
Qed.

Lemma shadows_Vector3d (contact : FootstepPlan.t -> Contact) (key : string)
    (default : FootstepPlan.t -> Vector3d) :
  shadows
    (fun p =>
       if Configuration.has (swingConfig (contact p)) key
       then Configuration.as_Vector3d (swingConfig (contact p)) key
       else Ok (default p))
    contact key CfgVector default.
Proof.
  intros p. split.
  - intros v Hv. rewrite (has_entry _ _ _ Hv).
    unfold Configuration.as_Vector3d. now rewrite Hv.
  - intros Hnone. now rewrite (has_no_entry _ _ Hnone).
Qed.

(** C9.  The getters of the swing height, the takeoff and landing pitch and
    the takeoff offset look their key up in the overrides of [prevContact],
    those of the takeoff and landing ratio in the overrides of
    [supportContact]: an override under the key is returned, and without
    one the plan's member is.  The getters are [const]: they are functions
    of the plan and return no plan, so no contact is written. *)
Theorem swing_getters_lookup :
  shadows FootstepPlan.swingHeight FootstepPlan.prevContact "height"
    CfgNumber FootstepPlan.swingHeight_ /\
  shadows FootstepPlan.takeoffPitch FootstepPlan.prevContact "takeoff_pitch"
    CfgNumber FootstepPlan.takeoffPitch_ /\
  shadows FootstepPlan.landingPitch FootstepPlan.prevContact "landing_pitch"
    CfgNumber FootstepPlan.landingPitch_ /\
  shadows FootstepPlan.takeoffOffset FootstepPlan.prevContact "takeoff_offset"
    CfgVector FootstepPlan.takeoffOffset_ /\
  shadows FootstepPlan.takeoffRatio FootstepPlan.supportContact "takeoff_ratio"
    CfgNumber FootstepPlan.takeoffRatio_ /\
  shadows FootstepPlan.landingRatio FootstepPlan.supportContact "landing_ratio"
    CfgNumber FootstepPlan.landingRatio_.
Proof.
  repeat match goal with |- _ /\ _ => split end.
  - apply (shadows_double FootstepPlan.prevContact).
  - apply (shadows_double FootstepPlan.prevContact).
  - apply (shadows_double FootstepPlan.prevContact).
  - apply (shadows_Vector3d FootstepPlan.prevContact).
  - apply (shadows_double FootstepPlan.supportContact).
  - apply (shadows_double FootstepPlan.supportContact).
Qed.

(** On [plan_with_overrides] the overridden height, offset and landing ratio
    are returned, and the pitch and the takeoff ratio are the plan's. *)
Lemma swing_getters_lookup_witness :
  FootstepPlan.swingHeight plan_with_overrides = Ok 0.1 /\
  FootstepPlan.takeoffOffset plan_with_overrides = Ok {| vx := -0.03; vy := 0; vz := 0 |} /\
  FootstepPlan.landingRatio plan_with_overrides = Ok 0.2 /\
  FootstepPlan.takeoffPitch plan_with_overrides = Ok 0 /\
  FootstepPlan.takeoffRatio plan_with_overrides = Ok 0.05.
Proof.
  destruct swing_getters_lookup as (Hh & Htp & _ & Hto & Htr & Hlr).
  split; [|split; [|split; [|split]]].
  - apply (Hh plan_with_overrides). vm_compute. reflexivity.
  - apply (Hto plan_with_overrides). vm_compute. reflexivity.
  - apply (Hlr plan_with_overrides). vm_compute. reflexivity.
  - apply (Htp plan_with_overrides). vm_compute. reflexivity.
  - apply (Htr plan_with_overrides). vm_compute. reflexivity.
Defined.

(** An override is returned as it is, outside the range the setter of the
    plan's member clamps to: here a swing height of 1 m. *)
Lemma swingHeight_override_unclamped :
  FootstepPlan.swingHeight
    (FootstepPlan.with_roles Contact_default
       {| id := 0; swingConfig := {[ "height" := CfgNumber 1 ]} |}
       Contact_default Contact_default FootstepPlan.init)
  = Ok 1.
Proof. vm_compute. reflexivity. Qed.

(** An override of another type than the getter's makes the conversion
    throw. *)
Lemma swingHeight_override_not_a_number :
  FootstepPlan.swingHeight
    (FootstepPlan.with_roles Contact_default
       {| id := 0; swingConfig := {[ "height" := CfgString "high" ]} |}
       Contact_default Contact_default FootstepPlan.init)
  = ConfigurationException.
Proof. vm_compute. reflexivity. Qed.

(** ** FootstepPlan: clamping setters *)

(** A setter that assigns the clamped input to one member clamps. *)
Lemma clamps_to_intro (set with_ : Q -> FootstepPlan.t -> FootstepPlan.t)
    (get : FootstepPlan.t -> Q) (lo hi : Q) :
  lo <= hi ->
  (forall v p, set v p = with_ (clamp v lo hi) p) ->
  (forall x p, get (with_ x p) = x) ->
  (forall x y p, with_ x (with_ y p) = with_ x p) ->
  clamps_to set get lo hi.
Proof.
  intros Hr Hset Hget Hwith v p. rewrite !Hset, !Hget.
  split; [reflexivity|]. split; [apply clamp_in_range, Hr|].
  split; [apply clamp_above|]. split; [apply clamp_below, Hr|].
  rewrite Hwith, clamp_idempotent by exact Hr. reflexivity.
Qed.

(** A setter that assigns the rounded and clamped input to one member
    rounds and clamps, when rounding takes neither bound into the range. *)
Lemma rounds_and_clamps_to_intro (T : Q)
    (set with_ : Q -> FootstepPlan.t -> FootstepPlan.t)
    (get : FootstepPlan.t -> Q) (lo hi : Q) :
  0 < T -> lo <= hi ->
  std_round (lo / T) * T <= lo -> hi <= std_round (hi / T) * T ->
  (forall v p, set v p = with_ (clamp (std_round (v / T) * T) lo hi) p) ->
  (forall x p, get (with_ x p) = x) ->
  (forall x y p, with_ x (with_ y p) = with_ x p) ->
  (forall x y p, x == y -> same_plan (with_ x p) (with_ y p)) ->
  rounds_and_clamps_to set get lo hi.
Proof.
  intros HT Hr Hlo Hhi Hset Hget Hwith Hsame v p. rewrite !Hset, !Hget.
  destruct (round_then_clamp T v lo hi HT Hr Hlo Hhi) as (Hin & Habove & Hbelow & Hidem).
  split; [exact Hin|]. split; [exact Habove|]. split; [exact Hbelow|].
  rewrite Hwith. apply Hsame, Hidem.
Qed.

(** C4, as the code has it.  Every setter of a scalar timing or swing
    parameter stores a value of the parameter's range, the nearest boundary
    for an input outside the range, and stores the same again when applied
    to what it stored.  For eight of them the stored value is the clamped
    input.  The double- and single-support durations are rounded to the
    sampling grid first; for them the statement needs a sampling period
    [T > 0] whose grid does not take the upper bounds 1 s and 2 s below
    themselves, [std::round(1 / T) * T >= 1] and [std::round(2 / T) * T >= 2],
    and "the same" is equality of rationals.  [takeoffOffset] has no range:
    its setter stores any vector as it is.  No getter clamps: the getters of
    the timing parameters return the member as it is stored, and the
    getters of the swing parameters return the override of the role
    contact, or without one the member, as it is stored. *)
Theorem setters_clamp_idempotent (T : Q) :
  0 < T -> 1 <= std_round (1 / T) * T -> 2 <= std_round (2 / T) * T ->
  clamps_to FootstepPlan.set_comHeight FootstepPlan.comHeight 0.7 0.85 /\
  rounds_and_clamps_to (FootstepPlan.set_doubleSupportDuration T)
    FootstepPlan.doubleSupportDuration 0 1 /\
  rounds_and_clamps_to (FootstepPlan.set_singleSupportDuration T)
    FootstepPlan.singleSupportDuration 0 2 /\
  clamps_to FootstepPlan.set_initDSPDuration FootstepPlan.initDSPDuration 0 1.6 /\
  clamps_to FootstepPlan.set_finalDSPDuration FootstepPlan.finalDSPDuration 0 1.6 /\
  clamps_to FootstepPlan.set_swingHeight FootstepPlan.swingHeight_ 0 0.25 /\
  clamps_to FootstepPlan.set_takeoffPitch FootstepPlan.takeoffPitch_ (-1) 1 /\
  clamps_to FootstepPlan.set_landingPitch FootstepPlan.landingPitch_ (-1) 1 /\
  clamps_to FootstepPlan.set_takeoffRatio FootstepPlan.takeoffRatio_ 0 0.5 /\
  clamps_to FootstepPlan.set_landingRatio FootstepPlan.landingRatio_ 0 0.5 /\
  (forall (offset : Vector3d) (p : FootstepPlan.t),
     FootstepPlan.takeoffOffset_ (FootstepPlan.set_takeoffOffset offset p) = offset /\
     FootstepPlan.set_takeoffOffset
       (FootstepPlan.takeoffOffset_ (FootstepPlan.set_takeoffOffset offset p))
       (FootstepPlan.set_takeoffOffset offset p)
     = FootstepPlan.set_takeoffOffset offset p) /\
  (forall p : FootstepPlan.t,
     FootstepPlan.comHeight p = FootstepPlan.comHeight_ p /\
     FootstepPlan.doubleSupportDuration p = FootstepPlan.doubleSupportDuration_ p /\
     FootstepPlan.singleSupportDuration p = FootstepPlan.singleSupportDuration_ p /\
     FootstepPlan.initDSPDuration p = FootstepPlan.initDSPDuration_ p /\
     FootstepPlan.finalDSPDuration p = FootstepPlan.finalDSPDuration_ p) /\
  shadows FootstepPlan.swingHeight FootstepPlan.prevContact "height"
    CfgNumber FootstepPlan.swingHeight_ /\
  shadows FootstepPlan.takeoffPitch FootstepPlan.prevContact "takeoff_pitch"
    CfgNumber FootstepPlan.takeoffPitch_ /\
  shadows FootstepPlan.landingPitch FootstepPlan.prevContact "landing_pitch"
    CfgNumber FootstepPlan.landingPitch_ /\
  shadows FootstepPlan.takeoffOffset FootstepPlan.prevContact "takeoff_offset"
    CfgVector FootstepPlan.takeoffOffset_ /\
  shadows FootstepPlan.takeoffRatio FootstepPlan.supportContact "takeoff_ratio"
    CfgNumber FootstepPlan.takeoffRatio_ /\
  shadows FootstepPlan.landingRatio FootstepPlan.supportContact "landing_ratio"
    CfgNumber FootstepPlan.landingRatio_.
Proof.
  intros HT Hone Htwo.
  assert (Hzero : std_round (0 / T) * T <= 0)
    by (rewrite round_to_period_zero by exact HT; lra).
  repeat match goal with |- _ /\ _ => split end.
  - apply (clamps_to_intro _ FootstepPlan.with_comHeight); [lra|reflexivity..].
  - apply (rounds_and_clamps_to_intro T _ FootstepPlan.with_doubleSupportDuration);
      try assumption; try reflexivity; [lra|].
    intros x y p Hxy. unfold same_plan. cbn. repeat split; try reflexivity. exact Hxy.
  - apply (rounds_and_clamps_to_intro T _ FootstepPlan.with_singleSupportDuration);
      try assumption; try reflexivity; [lra|].
    intros x y p Hxy. unfold same_plan. cbn. repeat split; try reflexivity. exact Hxy.
  - apply (clamps_to_intro _ FootstepPlan.with_initDSPDuration); [lra|reflexivity..].
  - apply (clamps_to_intro _ FootstepPlan.with_finalDSPDuration); [lra|reflexivity..].
  - apply (clamps_to_intro _ FootstepPlan.with_swingHeight); [lra|reflexivity..].
  - apply (clamps_to_intro _ FootstepPlan.with_takeoffPitch); [lra|reflexivity..].
  - apply (clamps_to_intro _ FootstepPlan.with_landingPitch); [lra|reflexivity..].
  - apply (clamps_to_intro _ FootstepPlan.with_takeoffRatio); [lra|reflexivity..].
  - apply (clamps_to_intro _ FootstepPlan.with_landingRatio); [lra|reflexivity..].
  - intros offset p. split; reflexivity.
  - intros p. repeat split.
  - apply (shadows_double FootstepPlan.prevContact).
  - apply (shadows_double FootstepPlan.prevContact).
  - apply (shadows_double FootstepPlan.prevContact).
  - apply (shadows_Vector3d FootstepPlan.prevContact).
  - apply (shadows_double FootstepPlan.supportContact).
  - apply (shadows_double FootstepPlan.supportContact).
Qed.

(** The condition on the sampling period holds for 0.1 s and for the
    binary64 value nearest to it.  With either: a CoM height of 2 m is
    stored as 0.85 m, a double-support duration of -3 s as 0 s and one of
    1.04 s as 1 s, a single-support duration of 7.31 s as 2 s. *)
Lemma setters_clamp_idempotent_witness :
  (0 < 0.1 /\ 1 <= std_round (1 / 0.1) * 0.1 /\ 2 <= std_round (2 / 0.1) * 0.1) /\
  (0 < binary64_tenth /\
   1 <= std_round (1 / binary64_tenth) * binary64_tenth /\
   2 <= std_round (2 / binary64_tenth) * binary64_tenth) /\
  FootstepPlan.comHeight (FootstepPlan.set_comHeight 2 FootstepPlan.init) = 0.85 /\
  FootstepPlan.doubleSupportDuration
    (FootstepPlan.set_doubleSupportDuration 0.1 (-3) FootstepPlan.init) == 0 /\
  FootstepPlan.singleSupportDuration
    (FootstepPlan.set_singleSupportDuration 0.1 7.31 FootstepPlan.init) == 2 /\
  FootstepPlan.doubleSupportDuration
    (FootstepPlan.set_doubleSupportDuration binary64_tenth 1.04 FootstepPlan.init) == 1 /\
  FootstepPlan.singleSupportDuration
    (FootstepPlan.set_singleSupportDuration binary64_tenth 7.31 FootstepPlan.init) == 2.
Proof.
  assert (HT : 0 < 0.1) by reflexivity.
  assert (Hone : 1 <= std_round (1 / 0.1) * 0.1) by (vm_compute; discriminate).
  assert (Htwo : 2 <= std_round (2 / 0.1) * 0.1) by (vm_compute; discriminate).
  assert (HT' : 0 < binary64_tenth) by reflexivity.
  assert (Hone' : 1 <= std_round (1 / binary64_tenth) * binary64_tenth)
    by (vm_compute; discriminate).
  assert (Htwo' : 2 <= std_round (2 / binary64_tenth) * binary64_tenth)
    by (vm_compute; discriminate).
  split; [split; [exact HT|split; [exact Hone|exact Htwo]]|].
  split; [split; [exact HT'|split; [exact Hone'|exact Htwo']]|].
  destruct (setters_clamp_idempotent 0.1 HT Hone Htwo) as (Hcom & Hdsp & Hssp & _).
  destruct (setters_clamp_idempotent binary64_tenth HT' Hone' Htwo')
    as (_ & Hdsp' & Hssp' & _).
  split; [|split; [|split; [|split]]].
  - destruct (Hcom 2 FootstepPlan.init) as (_ & _ & Habove & _).
    apply Habove. reflexivity.
  - destruct (Hdsp (-3) FootstepPlan.init) as (_ & _ & Hbelow & _).
    apply Hbelow. reflexivity.
  - destruct (Hssp 7.31 FootstepPlan.init) as (_ & Habove & _).
    apply Habove. reflexivity.
  - destruct (Hdsp' 1.04 FootstepPlan.init) as (_ & Habove & _).
    apply Habove. reflexivity.
  - destruct (Hssp' 7.31 FootstepPlan.init) as (_ & Habove & _).
    apply Habove. reflexivity.
Defined.

(** C4, the counterexample.  [takeoffOffset] stores an offset of a
    kilometre along each axis as it is, and no bound holds for what it
    stores: the setter clamps to no range.  And the condition on the
    sampling period is needed: with a period of 0.3 s, of which 1 s is not a
    multiple, a double-support duration of 1.04 s, above the range, is
    stored below the upper bound of 1 s. *)
Lemma takeoffOffset_not_clamped :
  FootstepPlan.takeoffOffset_
    (FootstepPlan.set_takeoffOffset {| vx := 1000; vy := -1000; vz := 1000 |}
       FootstepPlan.init)
  = {| vx := 1000; vy := -1000; vz := 1000 |} /\
  (forall bound : Q, exists offset : Vector3d,
     bound < vx (FootstepPlan.takeoffOffset_
                   (FootstepPlan.set_takeoffOffset offset FootstepPlan.init))) /\
  (0 < 0.3 /\ 1 < 1.04 /\
   FootstepPlan.doubleSupportDuration
     (FootstepPlan.set_doubleSupportDuration 0.3 1.04 FootstepPlan.init) < 1).
Proof.
  split; [reflexivity|]. split.
  - intros bound. exists {| vx := bound + 1; vy := 0; vz := 0 |}. cbn. lra.
  - repeat split.
Qed.

(** ** Footstep sequencing *)

Section Sequence.

Variable p : FootstepPlan.t.

Let n : nat := length (FootstepPlan.contacts p).

Lemma reset_pointers (startIndex : nat) :
  (startIndex < n)%nat -> Sequencing.reset p startIndex = Some (pointers_at n startIndex).
Proof.
  intros H. unfold Sequencing.reset. fold n.
  destruct (decide (startIndex < n)%nat); [reflexivity|contradiction].
Qed.

Lemma reset_out_of_range (startIndex : nat) :
  (n <= startIndex)%nat -> Sequencing.reset p startIndex = None.
Proof.
  intros H. unfold Sequencing.reset. fold n.
  destruct (decide (startIndex < n)%nat); [lia|reflexivity].
Qed.

Lemma goToNextFootstep_pointers (k : nat) :
  Sequencing.goToNextFootstep p (pointers_at n k)
  = pointers_at n (Nat.min (k + 1) (Sequencing.last_index n)).
Proof.
  unfold Sequencing.goToNextFootstep, pointers_at, Sequencing.advance. fold n. cbn.
  f_equal; unfold Sequencing.last_index; lia.
Qed.

(** Where the pointers are after [reset] and [calls] forward transitions. *)
Lemma after_pointers (startIndex calls : nat) :
  (startIndex < n)%nat ->
  Sequencing.after p startIndex calls
  = Some (pointers_at n (Nat.min (startIndex + calls) (Sequencing.last_index n))).
Proof.
  intros H. induction calls as [|calls IH].
  - cbn. rewrite reset_pointers by exact H. do 2 f_equal.
    unfold Sequencing.last_index. lia.
  - cbn. rewrite IH. cbn. rewrite goToNextFootstep_pointers. do 2 f_equal.
    unfold Sequencing.last_index. lia.
Qed.

Lemma contact_at_lookup (i : nat) :
  (i < n)%nat -> FootstepPlan.contacts p !! i = Some (Sequencing.contact_at p i).
Proof.
  intros H. unfold Sequencing.contact_at.
  destruct (lookup_lt_is_Some_2 (FootstepPlan.contacts p) i H) as [c Hc].
  now rewrite Hc.
Qed.

Lemma contact_at_monotone (i j : nat) :
  monotone_ids (FootstepPlan.contacts p) ->
  (i <= j)%nat -> (j < n)%nat ->
  (id (Sequencing.contact_at p i) <= id (Sequencing.contact_at p j))%Z.
Proof.
  intros Hmono Hij Hj.
  apply (Hmono i j); [exact Hij|apply contact_at_lookup; lia|apply contact_at_lookup, Hj].
Qed.

Lemma contact_at_successor (i : nat) :
  consecutive_ids (FootstepPlan.contacts p) ->
  (i + 1 < n)%nat ->
  id (Sequencing.contact_at p (i + 1)) = (id (Sequencing.contact_at p i) + 1)%Z.
Proof.
  intros Hcons Hi.
  apply (Hcons i); apply contact_at_lookup; lia.
Qed.

Lemma consecutive_ids_monotone :
  consecutive_ids (FootstepPlan.contacts p) -> monotone_ids (FootstepPlan.contacts p).
Proof.
  intros Hcons i j ci cj Hij Hi Hj.
  assert (Hjn : (j < n)%nat) by (apply lookup_lt_Some in Hj; exact Hj).
  assert (Hstep : forall d, (i + d < n)%nat ->
            id (Sequencing.contact_at p (i + d)) = (id ci + Z.of_nat d)%Z).
  { induction d as [|d IH]; intros Hd.
    - rewrite Nat.add_0_r. rewrite contact_at_lookup in Hi by lia.
      injection Hi as <-. lia.
    - replace (i + S d)%nat with (i + d + 1)%nat by lia.
      rewrite contact_at_successor by (try exact Hcons; lia).
      rewrite IH by lia. lia. }
  replace j with (i + (j - i))%nat in Hj, Hjn by lia.
  rewrite contact_at_lookup in Hj by exact Hjn. injection Hj as <-.
  rewrite Hstep by exact Hjn. lia.
Qed.

End Sequence.

(** The ids of the plan L0, R1, L2, R3 count its contacts. *)
Lemma four_step_plan_consecutive :
  consecutive_ids (FootstepPlan.contacts four_step_plan).
Proof.
  intros i ci cj Hi Hj.
  destruct i as [|[|[|[|i]]]]; cbn in Hi, Hj; try discriminate;
    injection Hi as <-; injection Hj as <-; reflexivity.
Qed.

(** C7, on the sequencing modelled from the spec.  In a plan whose contact
    ids do not decrease along the plan, [reset(startIndex)] on a contact of
    the plan followed by any number [N] of [goToNextFootstep()] calls
    leaves the four role pointers inside the contact sequence; the next
    call lowers the id of no role contact, no role contact has a larger id
    than the last contact, and once the support pointer is on the last
    contact a call changes nothing, however many follow. *)
Theorem goToNextFootstep_monotone (p : FootstepPlan.t) (startIndex N : nat) :
  let n := length (FootstepPlan.contacts p) in
  monotone_ids (FootstepPlan.contacts p) ->
  (startIndex < n)%nat ->
  exists r : Sequencing.pointers,
    Sequencing.after p startIndex N = Some r /\
    Sequencing.after p startIndex (S N) = Some (Sequencing.goToNextFootstep p r) /\
    Sequencing.in_range p r /\
    role_ids_le (Sequencing.plan_at p r)
      (Sequencing.plan_at p (Sequencing.goToNextFootstep p r)) /\
    role_ids_at_most (Sequencing.plan_at p r)
      (id (Sequencing.contact_at p (Sequencing.last_index n))) /\
    (Sequencing.support r = Sequencing.last_index n ->
       Sequencing.goToNextFootstep p r = r /\
       forall M : nat, Sequencing.after p startIndex (N + M) = Some r).
Proof.
  intros n Hmono Hstart.
  set (k := Nat.min (startIndex + N) (Sequencing.last_index n)).
  exists (pointers_at n k).
  assert (Hk : (k < n)%nat) by (unfold k, Sequencing.last_index; lia).
  assert (Hafter : Sequencing.after p startIndex N = Some (pointers_at n k))
    by apply after_pointers, Hstart.
  split; [exact Hafter|].
  split; [cbn; rewrite Hafter; reflexivity|].
  split; [|split; [|split]].
  - unfold Sequencing.in_range, pointers_at, Sequencing.last_index. cbn. fold n. lia.
  - rewrite goToNextFootstep_pointers. fold n.
    unfold role_ids_le, Sequencing.plan_at, pointers_at, Sequencing.last_index. cbn.
    repeat split; apply contact_at_monotone; try exact Hmono; fold n; lia.
  - unfold role_ids_at_most, Sequencing.plan_at, pointers_at, Sequencing.last_index. cbn.
    repeat split; apply contact_at_monotone; try exact Hmono; fold n; lia.
  - cbn. intros Hlast. split.
    + rewrite goToNextFootstep_pointers. fold n. f_equal.
      unfold Sequencing.last_index in *. lia.
    + intros M. rewrite after_pointers by exact Hstart. fold n. do 2 f_equal.
      unfold k, Sequencing.last_index in *. lia.
Qed.

(** The spec's scenario: on the plan L0, R1, L2, R3, [reset(0)] and three
    calls put every pointer on R3, where five more calls leave them. *)
Lemma goToNextFootstep_monotone_witness :
  Sequencing.after four_step_plan 0 3 = Some (pointers_at 4 3) /\
  Sequencing.goToNextFootstep four_step_plan (pointers_at 4 3) = pointers_at 4 3 /\
  Sequencing.after four_step_plan 0 (3 + 5) = Some (pointers_at 4 3).
Proof.
  assert (Hmono : monotone_ids (FootstepPlan.contacts four_step_plan))
    by apply consecutive_ids_monotone, four_step_plan_consecutive.
  assert (Hstart : (0 < length (FootstepPlan.contacts four_step_plan))%nat)
    by (cbn; lia).
  destruct (goToNextFootstep_monotone four_step_plan 0 3 Hmono Hstart)
    as (r & Hr & _ & _ & _ & _ & Hend).
  assert (Hr3 : r = pointers_at 4 3).
  { assert (H3 : Sequencing.after four_step_plan 0 3 = Some (pointers_at 4 3))
      by reflexivity.
    rewrite H3 in Hr. injection Hr as <-. reflexivity. }
  subst r. destruct Hend as [Hfix Hstay]; [reflexivity|].
  split; [exact Hr|]. split; [exact Hfix|exact (Hstay 5%nat)].
Defined.

(** On this sequencing the two end-of-plan tests of [Controller.h] never
    fire: no reachable state has a target id above the next id
    ([isLastSSP]) or a support id above the target id ([isLastDSP]). *)
Lemma isLastSSP_isLastDSP_never (p : FootstepPlan.t) (startIndex N : nat) :
  monotone_ids (FootstepPlan.contacts p) ->
  (startIndex < length (FootstepPlan.contacts p))%nat ->
  exists r : Sequencing.pointers,
    Sequencing.after p startIndex N = Some r /\
    forall c : Controller.t,
      Controller.plan c = Sequencing.plan_at p r ->
      Controller.isLastSSP c = false /\ Controller.isLastDSP c = false.
Proof.
  intros Hmono Hstart.
  set (n := length (FootstepPlan.contacts p)).
  set (k := Nat.min (startIndex + N) (Sequencing.last_index n)).
  exists (pointers_at n k).
  split; [apply after_pointers, Hstart|].
  intros c Hc.
  unfold Controller.isLastSSP, Controller.isLastDSP, Controller.targetContact,
    Controller.nextContact, Controller.supportContact.
  rewrite Hc. unfold Sequencing.plan_at, pointers_at. cbn.
  split; rewrite Z.gtb_ltb; apply Z.ltb_ge;
    apply contact_at_monotone; try exact Hmono; fold n;
    unfold k, Sequencing.last_index; lia.
Qed.

(** The same on the code alone, whatever writes the role contacts: while
    the ids are in the order [support.id < target.id <= next.id], neither
    test fires.  A state in which [isLastSSP] or [isLastDSP] returns [true]
    is a state outside that order. *)
Lemma role_order_excludes_last_phases (c : Controller.t) :
  (id (Controller.supportContact c) < id (Controller.targetContact c))%Z ->
  (id (Controller.targetContact c) <= id (Controller.nextContact c))%Z ->
  Controller.isLastSSP c = false /\ Controller.isLastDSP c = false.
Proof.
  intros Hst Htn. unfold Controller.isLastSSP, Controller.isLastDSP.
  split; rewrite Z.gtb_ltb; apply Z.ltb_ge; lia.
Qed.

(** ** FootstepPlan: what setter calls preserve *)

Lemma call_within_ranges (T : Q) (c : setter_call) (p : FootstepPlan.t) :
  within_ranges p -> within_ranges (call T c p).
Proof.
  unfold within_ranges.
  intros (Hcom & Hdsd & Hfin & Hini & Hlp & Hlr & Hssd & Hsh & Htp & Htr).
  destruct c; cbn [call];
    unfold FootstepPlan.set_comHeight, FootstepPlan.set_doubleSupportDuration,
      FootstepPlan.set_finalDSPDuration, FootstepPlan.set_initDSPDuration,
      FootstepPlan.set_landingPitch, FootstepPlan.set_landingRatio,
      FootstepPlan.set_singleSupportDuration, FootstepPlan.set_swingHeight,
      FootstepPlan.set_takeoffOffset, FootstepPlan.set_takeoffPitch,
      FootstepPlan.set_takeoffRatio;
    cbn -[clamp std_round Qle Qdiv Qmult];
    unfold FootstepPlan.MIN_COM_HEIGHT, FootstepPlan.MAX_COM_HEIGHT,
      FootstepPlan.MIN_DS_DURATION, FootstepPlan.MAX_DS_DURATION,
      FootstepPlan.MIN_SS_DURATION, FootstepPlan.MAX_SS_DURATION,
      FootstepPlan.MIN_LANDING_PITCH, FootstepPlan.MAX_LANDING_PITCH,
      FootstepPlan.MIN_SWING_FOOT_HEIGHT, FootstepPlan.MAX_SWING_FOOT_HEIGHT,
      FootstepPlan.MIN_TAKEOFF_PITCH, FootstepPlan.MAX_TAKEOFF_PITCH;
    repeat split; try tauto; apply clamp_in_range; lra.
Qed.

(** X1.  The ranges as an invariant: the parameters of a default-constructed
    plan are in their ranges, and setter calls keep them there. *)
Theorem setters_keep_within_ranges :
  within_ranges FootstepPlan.init /\
  forall (T : Q) (cs : list setter_call) (p : FootstepPlan.t),
    within_ranges p -> within_ranges (calls T cs p).
Proof.
  split.
  - unfold within_ranges. cbn. repeat split; lra.
  - intros T cs. induction cs as [|c cs IH]; intros p Hp; [exact Hp|].
    cbn [calls]. apply IH, call_within_ranges, Hp.
Qed.

(** * Further properties of the two headers *)

(** ** FootstepPlan: what setter calls leave alone, and how they compose *)

Lemma call_frame (T : Q) (c : setter_call) (p : FootstepPlan.t) :
  FootstepPlan.name (call T c p) = FootstepPlan.name p /\
  FootstepPlan.contacts_ (call T c p) = FootstepPlan.contacts_ p /\
  FootstepPlan.nextFootstep_ (call T c p) = FootstepPlan.nextFootstep_ p /\
  FootstepPlan.prevContact_ (call T c p) = FootstepPlan.prevContact_ p /\
  FootstepPlan.supportContact_ (call T c p) = FootstepPlan.supportContact_ p /\
  FootstepPlan.targetContact_ (call T c p) = FootstepPlan.targetContact_ p /\
  FootstepPlan.nextContact_ (call T c p) = FootstepPlan.nextContact_ p.
Proof. destruct c; repeat split. Qed.

Lemma calls_frame (T : Q) (cs : list setter_call) (p : FootstepPlan.t) :
  FootstepPlan.name (calls T cs p) = FootstepPlan.name p /\
  FootstepPlan.contacts_ (calls T cs p) = FootstepPlan.contacts_ p /\
  FootstepPlan.nextFootstep_ (calls T cs p) = FootstepPlan.nextFootstep_ p /\
  FootstepPlan.prevContact_ (calls T cs p) = FootstepPlan.prevContact_ p /\
  FootstepPlan.supportContact_ (calls T cs p) = FootstepPlan.supportContact_ p /\
  FootstepPlan.targetContact_ (calls T cs p) = FootstepPlan.targetContact_ p /\
  FootstepPlan.nextContact_ (calls T cs p) = FootstepPlan.nextContact_ p.
Proof.
  revert p. induction cs as [|c cs IH]; intros p; [repeat split|].
  cbn [calls].
  destruct (IH (call T c p)) as (H1 & H2 & H3 & H4 & H5 & H6 & H7).
  destruct (call_frame T c p) as (G1 & G2 & G3 & G4 & G5 & G6 & G7).
  rewrite H1, H2, H3, H4, H5, H6, H7. repeat split; assumption.
Qed.

(** X3.  Setter calls write parameters only.  Whatever the calls and their
    arguments, the plan keeps its name, its contact sequence, its footstep
    cursor and its four role contacts; so a controller holding the plan
    answers [isLastSSP()] and [isLastDSP()] as before the calls. *)
Theorem setter_calls_frame (T : Q) (cs : list setter_call) (p : FootstepPlan.t) :
  let p' := calls T cs p in
  FootstepPlan.name p' = FootstepPlan.name p /\
  FootstepPlan.contacts p' = FootstepPlan.contacts p /\
  FootstepPlan.nextFootstep_ p' = FootstepPlan.nextFootstep_ p /\
  FootstepPlan.prevContact p' = FootstepPlan.prevContact p /\
  FootstepPlan.supportContact p' = FootstepPlan.supportContact p /\
  FootstepPlan.targetContact p' = FootstepPlan.targetContact p /\
  FootstepPlan.nextContact p' = FootstepPlan.nextContact p /\
  (forall c c' : Controller.t,
     Controller.plan c = p -> Controller.plan c' = p' ->
     Controller.isLastSSP c' = Controller.isLastSSP c /\
     Controller.isLastDSP c' = Controller.isLastDSP c).
Proof.
  cbv zeta.
  destruct (calls_frame T cs p) as (H1 & H2 & H3 & H4 & H5 & H6 & H7).
  unfold FootstepPlan.contacts, FootstepPlan.prevContact, FootstepPlan.supportContact,
    FootstepPlan.targetContact, FootstepPlan.nextContact.
  repeat match goal with |- _ /\ _ => split end; try assumption.
  intros c c' Hc Hc'.
  unfold Controller.isLastSSP, Controller.isLastDSP, Controller.targetContact,
    Controller.nextContact, Controller.supportContact, FootstepPlan.targetContact,
    FootstepPlan.nextContact, FootstepPlan.supportContact.
  rewrite Hc, Hc', H5, H6, H7. split; reflexivity.
Qed.

(** X4.  Two setter calls in a row.  Calls of the same setter do not add up: the
    plan after both is the plan after the second alone.  Calls of different
    setters can be swapped. *)
Theorem setter_calls_compose (T : Q) (c1 c2 : setter_call) (p : FootstepPlan.t) :
  (same_setter c1 c2 = true -> call T c2 (call T c1 p) = call T c2 p) /\
  (same_setter c1 c2 = false -> call T c2 (call T c1 p) = call T c1 (call T c2 p)).
Proof.
  destruct c1, c2; cbn [same_setter]; split; intros H;
    try discriminate H; reflexivity.
Qed.

(** A CoM height of 0.8 m set after one of 0.75 m leaves the plan a single
    call of 0.8 m leaves, and swaps with a swing height of 0.1 m. *)
Lemma setter_calls_compose_witness :
  call 0.1 (Call_comHeight 0.8) (call 0.1 (Call_comHeight 0.75) FootstepPlan.init)
  = call 0.1 (Call_comHeight 0.8) FootstepPlan.init /\
  call 0.1 (Call_swingHeight 0.1) (call 0.1 (Call_comHeight 0.8) FootstepPlan.init)
  = call 0.1 (Call_comHeight 0.8) (call 0.1 (Call_swingHeight 0.1) FootstepPlan.init).
Proof.
  split.
  - apply (proj1 (setter_calls_compose 0.1 (Call_comHeight 0.75) (Call_comHeight 0.8)
                    FootstepPlan.init)).
    reflexivity.
  - apply (proj2 (setter_calls_compose 0.1 (Call_comHeight 0.8) (Call_swingHeight 0.1)
                    FootstepPlan.init)).
    reflexivity.
Defined.

(** ** FootstepPlan: setters keep the order of their arguments *)

(** X5.  The setters are order-preserving.  With a sampling period [T > 0], a
    larger argument never stores a smaller value, for each of the ten
    scalar setters, the two that round included. *)
Theorem setters_monotone (T : Q) :
  0 < T ->
  monotone_setter FootstepPlan.set_comHeight FootstepPlan.comHeight /\
  monotone_setter (FootstepPlan.set_doubleSupportDuration T)
    FootstepPlan.doubleSupportDuration /\
  monotone_setter (FootstepPlan.set_singleSupportDuration T)
    FootstepPlan.singleSupportDuration /\
  monotone_setter FootstepPlan.set_initDSPDuration FootstepPlan.initDSPDuration /\
  monotone_setter FootstepPlan.set_finalDSPDuration FootstepPlan.finalDSPDuration /\
  monotone_setter FootstepPlan.set_swingHeight FootstepPlan.swingHeight_ /\
  monotone_setter FootstepPlan.set_takeoffPitch FootstepPlan.takeoffPitch_ /\
  monotone_setter FootstepPlan.set_landingPitch FootstepPlan.landingPitch_ /\
  monotone_setter FootstepPlan.set_takeoffRatio FootstepPlan.takeoffRatio_ /\
  monotone_setter FootstepPlan.set_landingRatio FootstepPlan.landingRatio_.
Proof.
  intros HT.
  repeat match goal with |- _ /\ _ => split end; intros v w p Hvw;
    cbn -[clamp std_round Qle Qdiv Qmult];
    apply clamp_monotone;
    first [exact Hvw | apply round_to_period_monotone; assumption | idtac];
    vm_compute; discriminate.
Qed.

(** At T = 0.1 s: asking for 0.34 s and then for 0.36 s of double support
    stores 0.3 s and then 0.4 s. *)
Lemma setters_monotone_witness :
  0 < 0.1 /\
  FootstepPlan.doubleSupportDuration
    (FootstepPlan.set_doubleSupportDuration 0.1 0.34 FootstepPlan.init)
  <= FootstepPlan.doubleSupportDuration
       (FootstepPlan.set_doubleSupportDuration 0.1 0.36 FootstepPlan.init).
Proof.
  assert (HT : 0 < 0.1) by reflexivity.
  split; [exact HT|].
  destruct (setters_monotone 0.1 HT) as (_ & Hdsp & _).
  apply Hdsp. vm_compute. discriminate.
Defined.

(** ** FootstepPlan: writing back what a getter returned *)

Lemma same_plan_doubleSupportDuration (x : Q) (p : FootstepPlan.t) :
  x == FootstepPlan.doubleSupportDuration_ p ->
  same_plan (FootstepPlan.with_doubleSupportDuration x p) p.
Proof. intros H. unfold same_plan. cbn. repeat split; try reflexivity. exact H. Qed.

Lemma same_plan_singleSupportDuration (x : Q) (p : FootstepPlan.t) :
  x == FootstepPlan.singleSupportDuration_ p ->
  same_plan (FootstepPlan.with_singleSupportDuration x p) p.
Proof. intros H. unfold same_plan. cbn. repeat split; try reflexivity. exact H. Qed.

Lemma round_then_clamp_on_grid (T w lo hi : Q) :
  0 < T -> multiple_of T w -> lo <= w <= hi ->
  clamp (std_round (w / T) * T) lo hi == w.
Proof.
  intros HT Hw Hr.
  rewrite (clamp_comp _ w) by (apply round_to_period_fixes_multiples; assumption).
  rewrite clamp_inside by exact Hr. reflexivity.
Qed.

(** X7.  Timing parameters read and written back.  On a plan whose parameters
    are in their ranges, a timing setter called with what the getter of the
    same parameter returns changes nothing: the plan is the same plan for
    the CoM height and the initial and final double-support durations, and,
    the double- and single-support durations being on the grid of a
    sampling period [T > 0], the same up to equality of rationals for
    these two. *)
Theorem timing_getters_then_setters (T : Q) (p : FootstepPlan.t) :
  0 < T -> within_ranges p -> on_grid T p ->
  FootstepPlan.set_comHeight (FootstepPlan.comHeight p) p = p /\
  FootstepPlan.set_initDSPDuration (FootstepPlan.initDSPDuration p) p = p /\
  FootstepPlan.set_finalDSPDuration (FootstepPlan.finalDSPDuration p) p = p /\
  same_plan
    (FootstepPlan.set_doubleSupportDuration T (FootstepPlan.doubleSupportDuration p) p) p /\
  same_plan
    (FootstepPlan.set_singleSupportDuration T (FootstepPlan.singleSupportDuration p) p) p.
Proof.
  intros HT Hin [Hd Hs].
  destruct Hin as (Hcom & Hdsd & Hfin & Hini & _ & _ & Hssd & _).
  repeat match goal with |- _ /\ _ => split end.
  - unfold FootstepPlan.set_comHeight, FootstepPlan.comHeight.
    rewrite clamp_inside by exact Hcom. destruct p; reflexivity.
  - unfold FootstepPlan.set_initDSPDuration, FootstepPlan.initDSPDuration.
    rewrite clamp_inside by exact Hini. destruct p; reflexivity.
  - unfold FootstepPlan.set_finalDSPDuration, FootstepPlan.finalDSPDuration.
    rewrite clamp_inside by exact Hfin. destruct p; reflexivity.
  - apply same_plan_doubleSupportDuration, round_then_clamp_on_grid; assumption.
  - apply same_plan_singleSupportDuration, round_then_clamp_on_grid; assumption.
Qed.

(** The default plan at T = 0.1 s: every timing parameter written back
    leaves it as it is. *)
Lemma timing_getters_then_setters_witness :
  (0 < 0.1 /\ within_ranges FootstepPlan.init /\ on_grid 0.1 FootstepPlan.init) /\
  FootstepPlan.set_comHeight (FootstepPlan.comHeight FootstepPlan.init) FootstepPlan.init
  = FootstepPlan.init /\
  same_plan
    (FootstepPlan.set_doubleSupportDuration 0.1
       (FootstepPlan.doubleSupportDuration FootstepPlan.init) FootstepPlan.init)
    FootstepPlan.init.
Proof.
  assert (HT : 0 < 0.1) by reflexivity.
  assert (Hin : within_ranges FootstepPlan.init)
    by (unfold within_ranges; cbn; repeat split; vm_compute; discriminate).
  assert (Hgrid : on_grid 0.1 FootstepPlan.init)
    by (split; [exists 2%Z|exists 8%Z]; reflexivity).
  split; [split; [exact HT|split; [exact Hin|exact Hgrid]]|].
  destruct (timing_getters_then_setters 0.1 FootstepPlan.init HT Hin Hgrid)
    as (Hcom & _ & _ & Hdsd & _).
  split; [exact Hcom|exact Hdsd].
Defined.

(** ** FootstepPlan: swing setters and getters together *)

Lemma set_then_get_intro (getter : FootstepPlan.t -> result Q)
    (set : Q -> FootstepPlan.t -> FootstepPlan.t) (member : FootstepPlan.t -> Q)
    (contact : FootstepPlan.t -> Contact) (key : string) (lo hi : Q) :
  shadows getter contact key CfgNumber member ->
  (forall v p, contact (set v p) = contact p) ->
  (forall v p, member (set v p) = clamp v lo hi) ->
  set_then_get getter set contact key lo hi.
Proof.
  intros Hsh Hcontact Hmember v p. split.
  - intros Hnone. destruct (Hsh (set v p)) as [_ Hdef].
    rewrite Hdef by (rewrite Hcontact; exact Hnone). now rewrite Hmember.
  - intros o Ho. split.
    + destruct (Hsh (set v p)) as [Hov _]. apply Hov. rewrite Hcontact. exact Ho.
    + destruct (Hsh p) as [Hov _]. apply Hov, Ho.
Qed.

(** X8.  A swing setter seen through the getter.  After the setter of a scalar
    swing parameter, the getter returns the clamped argument when the role
    contact it consults carries no override under its key; when the contact
    carries one, the getter returns the override, as before the call, and
    the call is not seen.  The same holds of the takeoff offset, stored as
    it is. *)
Theorem swing_setters_then_getters :
  set_then_get FootstepPlan.swingHeight FootstepPlan.set_swingHeight
    FootstepPlan.prevContact "height" 0 0.25 /\
  set_then_get FootstepPlan.takeoffPitch FootstepPlan.set_takeoffPitch
    FootstepPlan.prevContact "takeoff_pitch" (-1) 1 /\
  set_then_get FootstepPlan.landingPitch FootstepPlan.set_landingPitch
    FootstepPlan.prevContact "landing_pitch" (-1) 1 /\
  set_then_get FootstepPlan.takeoffRatio FootstepPlan.set_takeoffRatio
    FootstepPlan.supportContact "takeoff_ratio" 0 0.5 /\
  set_then_get FootstepPlan.landingRatio FootstepPlan.set_landingRatio
    FootstepPlan.supportContact "landing_ratio" 0 0.5 /\
  (forall (offset : Vector3d) (p : FootstepPlan.t),
     (swingConfig (FootstepPlan.prevContact p) !! "takeoff_offset" = None ->
      FootstepPlan.takeoffOffset (FootstepPlan.set_takeoffOffset offset p) = Ok offset) /\
     (forall o : Vector3d,
        swingConfig (FootstepPlan.prevContact p) !! "takeoff_offset" = Some (CfgVector o) ->
        FootstepPlan.takeoffOffset (FootstepPlan.set_takeoffOffset offset p) = Ok o)).
Proof.
  repeat match goal with |- _ /\ _ => split end.
  - apply (set_then_get_intro _ _ FootstepPlan.swingHeight_);
      [apply (shadows_double FootstepPlan.prevContact)|reflexivity..].
  - apply (set_then_get_intro _ _ FootstepPlan.takeoffPitch_);
      [apply (shadows_double FootstepPlan.prevContact)|reflexivity..].
  - apply (set_then_get_intro _ _ FootstepPlan.landingPitch_);
      [apply (shadows_double FootstepPlan.prevContact)|reflexivity..].
  - apply (set_then_get_intro _ _ FootstepPlan.takeoffRatio_);
      [apply (shadows_double FootstepPlan.supportContact)|reflexivity..].
  - apply (set_then_get_intro _ _ FootstepPlan.landingRatio_);
      [apply (shadows_double FootstepPlan.supportContact)|reflexivity..].
  - intros offset p.
    pose proof (shadows_Vector3d FootstepPlan.prevContact "takeoff_offset"
                  FootstepPlan.takeoffOffset_ (FootstepPlan.set_takeoffOffset offset p))
      as [Hov Hdef].
    split; [intros Hnone; exact (Hdef Hnone)|intros o Ho; exact (Hov o Ho)].
Qed.

(** On [plan_with_overrides], whose previous contact overrides the swing
    height with 0.1 m and not the takeoff pitch: a swing height of 0.2 m
    set on the plan is not seen, a takeoff pitch of 3 rad is seen as
    1 rad. *)
Lemma swing_setters_then_getters_witness :
  FootstepPlan.swingHeight (FootstepPlan.set_swingHeight 0.2 plan_with_overrides) = Ok 0.1 /\
  FootstepPlan.takeoffPitch (FootstepPlan.set_takeoffPitch 3 plan_with_overrides) = Ok 1.
Proof.
  destruct swing_setters_then_getters as (Hh & Htp & _).
  split.
  - destruct (Hh 0.2 plan_with_overrides) as [_ Hov].
    apply (Hov 0.1). vm_compute. reflexivity.
  - destruct (Htp 3 plan_with_overrides) as [Hdef _].
    apply Hdef. vm_compute. reflexivity.
Defined.

Lemma get_then_set_intro (getter : FootstepPlan.t -> result Q)
    (set with_ : Q -> FootstepPlan.t -> FootstepPlan.t) (member : FootstepPlan.t -> Q)
    (contact : FootstepPlan.t -> Contact) (key : string) (lo hi : Q) :
  shadows getter contact key CfgNumber member ->
  (forall v p, set v p = with_ (clamp v lo hi) p) ->
  (forall x p, member (with_ x p) = x) ->
  (forall p, with_ (member p) p = p) ->
  get_then_set getter set member contact key lo hi.
Proof.
  intros Hsh Hset Hmember Heta p v Hv. destruct (Hsh p) as [Hov Hdef]. split.
  - intros Hnone Hr. rewrite (Hdef Hnone) in Hv. injection Hv as <-.
    rewrite Hset, clamp_inside by exact Hr. apply Heta.
  - intros o Ho. rewrite (Hov o Ho) in Hv. injection Hv as <-.
    rewrite Hset. apply Hmember.
Qed.

(** X9.  What a swing getter returned, written back.  For each scalar swing
    parameter: when the role contact carries no override under the key and
    the plan's member is in its range, the setter called with what the
    getter returned leaves the plan as it is; when the contact carries an
    override, the same call stores the clamped override as the plan's
    member. *)
Theorem swing_getters_then_setters :
  get_then_set FootstepPlan.swingHeight FootstepPlan.set_swingHeight
    FootstepPlan.swingHeight_ FootstepPlan.prevContact "height" 0 0.25 /\
  get_then_set FootstepPlan.takeoffPitch FootstepPlan.set_takeoffPitch
    FootstepPlan.takeoffPitch_ FootstepPlan.prevContact "takeoff_pitch" (-1) 1 /\
  get_then_set FootstepPlan.landingPitch FootstepPlan.set_landingPitch
    FootstepPlan.landingPitch_ FootstepPlan.prevContact "landing_pitch" (-1) 1 /\
  get_then_set FootstepPlan.takeoffRatio FootstepPlan.set_takeoffRatio
    FootstepPlan.takeoffRatio_ FootstepPlan.supportContact "takeoff_ratio" 0 0.5 /\
  get_then_set FootstepPlan.landingRatio FootstepPlan.set_landingRatio
    FootstepPlan.landingRatio_ FootstepPlan.supportContact "landing_ratio" 0 0.5.
Proof.
  repeat match goal with |- _ /\ _ => split end.
  - apply (get_then_set_intro _ _ FootstepPlan.with_swingHeight);
      [apply (shadows_double FootstepPlan.prevContact)|reflexivity..|].
    intros p; destruct p; reflexivity.
  - apply (get_then_set_intro _ _ FootstepPlan.with_takeoffPitch);
      [apply (shadows_double FootstepPlan.prevContact)|reflexivity..|].
    intros p; destruct p; reflexivity.
  - apply (get_then_set_intro _ _ FootstepPlan.with_landingPitch);
      [apply (shadows_double FootstepPlan.prevContact)|reflexivity..|].
    intros p; destruct p; reflexivity.
  - apply (get_then_set_intro _ _ FootstepPlan.with_takeoffRatio);
      [apply (shadows_double FootstepPlan.supportContact)|reflexivity..|].
    intros p; destruct p; reflexivity.
  - apply (get_then_set_intro _ _ FootstepPlan.with_landingRatio);
      [apply (shadows_double FootstepPlan.supportContact)|reflexivity..|].
    intros p; destruct p; reflexivity.
Qed.

(** On [plan_with_overrides]: the swing height read (the override, 0.1 m)
    and written back replaces the plan's 0.04 m by 0.1 m; the takeoff pitch
    read (the plan's) and written back changes nothing. *)
Lemma swing_getters_then_setters_witness :
  FootstepPlan.swingHeight_ (FootstepPlan.set_swingHeight 0.1 plan_with_overrides)
  = clamp 0.1 0 0.25 /\
  FootstepPlan.set_takeoffPitch 0 plan_with_overrides = plan_with_overrides.
Proof.
  destruct swing_getters_then_setters as (Hh & Htp & _).
  split.
  - assert (Hget : FootstepPlan.swingHeight plan_with_overrides = Ok 0.1)
      by (vm_compute; reflexivity).
    destruct (Hh plan_with_overrides 0.1 Hget) as [_ Hov].
    apply Hov. vm_compute. reflexivity.
  - assert (Hget : FootstepPlan.takeoffPitch plan_with_overrides = Ok 0)
      by (vm_compute; reflexivity).
    destruct (Htp plan_with_overrides 0 Hget) as [Hdef _].
    apply Hdef; [vm_compute; reflexivity|split; vm_compute; discriminate].
Defined.

(** ** FootstepPlan: when a swing getter throws *)

Lemma throws_double (contact : FootstepPlan.t -> Contact) (key : string)
    (default : FootstepPlan.t -> Q) :
  throws_on_other_type
    (fun p =>
       if Configuration.has (swingConfig (contact p)) key
       then Configuration.as_double (swingConfig (contact p)) key
       else Ok (default p))
    contact key CfgNumber.
Proof.
  intros p. unfold Configuration.has, Configuration.as_double.
  destruct (swingConfig (contact p) !! key) as [e|] eqn:He.
  - rewrite bool_decide_eq_true_2 by (eexists; reflexivity). split.
    + intros Hthrow. exists e. split; [reflexivity|].
      intros v ->. discriminate Hthrow.
    + intros (e' & He' & Hne). injection He' as <-.
      destruct e as [x| |]; [destruct (Hne x); reflexivity|reflexivity..].
  - rewrite bool_decide_eq_false_2 by (intros [v Hv]; discriminate Hv). split.
    + intros Hthrow. discriminate Hthrow.
    + intros (e & He' & _). discriminate He'.
Qed.

Lemma throws_Vector3d (contact : FootstepPlan.t -> Contact) (key : string)
    (default : FootstepPlan.t -> Vector3d) :
  throws_on_other_type
    (fun p =>
       if Configuration.has (swingConfig (contact p)) key
       then Configuration.as_Vector3d (swingConfig (contact p)) key
       else Ok (default p))
    contact key CfgVector.
Proof.
  intros p. unfold Configuration.has, Configuration.as_Vector3d.
  destruct (swingConfig (contact p) !! key) as [e|] eqn:He.
  - rewrite bool_decide_eq_true_2 by (eexists; reflexivity). split.
    + intros Hthrow. exists e. split; [reflexivity|].
      intros v ->. discriminate Hthrow.
    + intros (e' & He' & Hne). injection He' as <-.
      destruct e as [|x|]; [reflexivity|destruct (Hne x); reflexivity|reflexivity].
  - rewrite bool_decide_eq_false_2 by (intros [v Hv]; discriminate Hv). split.
    + intros Hthrow. discriminate Hthrow.
    + intros (e & He' & _). discriminate He'.
Qed.

(** X10.  The swing getters throw on an entry of another type, and only then.
    Each of the six getters fails with the exception of the conversion
    exactly when the role contact it consults has an entry under its key
    that is not of the getter's type; a missing key never makes a getter
    fail. *)
Theorem swing_getters_throw :
  throws_on_other_type FootstepPlan.swingHeight FootstepPlan.prevContact
    "height" CfgNumber /\
  throws_on_other_type FootstepPlan.takeoffPitch FootstepPlan.prevContact
    "takeoff_pitch" CfgNumber /\
  throws_on_other_type FootstepPlan.landingPitch FootstepPlan.prevContact
    "landing_pitch" CfgNumber /\
  throws_on_other_type FootstepPlan.takeoffOffset FootstepPlan.prevContact
    "takeoff_offset" CfgVector /\
  throws_on_other_type FootstepPlan.takeoffRatio FootstepPlan.supportContact
    "takeoff_ratio" CfgNumber /\
  throws_on_other_type FootstepPlan.landingRatio FootstepPlan.supportContact
    "landing_ratio" CfgNumber.
Proof.
  repeat match goal with |- _ /\ _ => split end.
  - apply (throws_double FootstepPlan.prevContact).
  - apply (throws_double FootstepPlan.prevContact).
  - apply (throws_double FootstepPlan.prevContact).
  - apply (throws_Vector3d FootstepPlan.prevContact).
  - apply (throws_double FootstepPlan.supportContact).
  - apply (throws_double FootstepPlan.supportContact).
Qed.

(** ** Controller: the measured left-foot ratio, further *)

Lemma measuredLeftFootRatio_forces (c : Controller.t) :
  fst (Controller.measuredLeftFootRatio c)
  = fdiv (std_max 0 (leftFootForce c))
      (std_max 0 (leftFootForce c) + std_max 0 (rightFootForce c)).
Proof. reflexivity. Qed.

Lemma std_max_0_positive (x : Q) : 0 < x -> std_max 0 x = x.
Proof. intros H. unfold std_max. destruct (Qlt_le_dec 0 x); [reflexivity|lra]. Qed.

Lemma std_max_0_nonpositive (x : Q) : x <= 0 -> std_max 0 x = 0.
Proof. intros H. unfold std_max. destruct (Qlt_le_dec 0 x); [lra|reflexivity]. Qed.

(** X13.  A foot in the air.  When the right sensor reads no positive force and
    the left one a positive force the measured ratio is 1, and it is 0 the
    other way round: a negative reading counts as no force at all. *)
Theorem measuredLeftFootRatio_single_support (c : Controller.t) :
  (0 < leftFootForce c -> rightFootForce c <= 0 ->
     exists q : Q, fst (Controller.measuredLeftFootRatio c) = Finite q /\ q == 1) /\
  (leftFootForce c <= 0 -> 0 < rightFootForce c ->
     exists q : Q, fst (Controller.measuredLeftFootRatio c) = Finite q /\ q == 0).
Proof.
  rewrite measuredLeftFootRatio_forces. split; intros H1 H2.
  - rewrite (std_max_0_positive _ H1), (std_max_0_nonpositive _ H2).
    eexists. split; [apply fdiv_nonzero; lra|]. field. lra.
  - rewrite (std_max_0_nonpositive _ H1), (std_max_0_positive _ H2).
    eexists. split; [apply fdiv_nonzero; lra|]. field. lra.
Qed.

(** 400 N on the left foot and -5 N read on the right one: the ratio
    is 1. *)
Lemma measuredLeftFootRatio_single_support_witness :
  exists q : Q,
    fst (Controller.measuredLeftFootRatio
           (Controller.init FootstepPlan.init 0.1 (robot_with_foot_forces 400 (-5))))
    = Finite q /\ q == 1.
Proof.
  apply (proj1 (measuredLeftFootRatio_single_support _)).
  - reflexivity.
  - vm_compute. discriminate.
Defined.

(** ** Controller: the override of the double-support duration, further *)

(** X15.  One call from any state.  Whatever the controller, a call of
    [doubleSupportDuration()] leaves no positive override behind and
    changes no member but the override, so the call after it returns the
    plan's duration and changes nothing; and when the plan's parameters are
    in their ranges the duration returned is not negative. *)
Theorem doubleSupportDuration_clears_override (c : Controller.t) :
  let d := fst (Controller.doubleSupportDuration c) in
  let c1 := snd (Controller.doubleSupportDuration c) in
  Controller.doubleSupportDurationOverride_ c1 <= 0 /\
  (forall x : Q,
     Controller.with_doubleSupportDurationOverride x c1
     = Controller.with_doubleSupportDurationOverride x c) /\
  Controller.doubleSupportDuration c1
  = (FootstepPlan.doubleSupportDuration (Controller.plan c), c1) /\
  (within_ranges (Controller.plan c) -> 0 <= d).
Proof.
  cbv zeta.
  assert (Hcall :
    (0 < Controller.doubleSupportDurationOverride_ c /\
     Controller.doubleSupportDuration c
     = (Controller.doubleSupportDurationOverride_ c,
        Controller.with_doubleSupportDurationOverride (-1) c)) \/
    (Controller.doubleSupportDurationOverride_ c <= 0 /\
     Controller.doubleSupportDuration c
     = (FootstepPlan.doubleSupportDuration (Controller.plan c), c))).
  { unfold Controller.doubleSupportDuration.
    destruct (Qlt_le_dec 0 (Controller.doubleSupportDurationOverride_ c));
      [left|right]; split; (assumption || reflexivity). }
  destruct Hcall as [[Hpos ->]|[Hneg ->]]; cbn [fst snd].
  - split; [cbn; lra|]. split; [reflexivity|]. split.
    + apply (doubleSupportDuration_no_override
               (Controller.with_doubleSupportDurationOverride (-1) c)).
      cbn. lra.
    + intros _. lra.
  - split; [exact Hneg|]. split; [reflexivity|]. split.
    + apply doubleSupportDuration_no_override, Hneg.
    + intros (_ & Hdsd & _). exact (proj1 Hdsd).
Qed.

(** A fresh controller around the default plan, with an override of 5 s:
    the call returns 5 s, which is not negative. *)
Lemma doubleSupportDuration_clears_override_witness :
  let c := Controller.nextDoubleSupportDuration 5
             (Controller.init FootstepPlan.init 0.1 (robot_with_foot_forces 300 100)) in
  within_ranges (Controller.plan c) /\
  0 <= fst (Controller.doubleSupportDuration c) /\
  Controller.doubleSupportDurationOverride_ (snd (Controller.doubleSupportDuration c)) <= 0.
Proof.
  intros c.
  assert (Hin : within_ranges (Controller.plan c))
    by (unfold within_ranges; cbn; repeat split; vm_compute; discriminate).
  destruct (doubleSupportDuration_clears_override c) as (Hcleared & _ & _ & Hpos).
  split; [exact Hin|]. split; [exact (Hpos Hin)|exact Hcleared].
Defined.

Lemma nextDoubleSupportDuration_calls_last (ds : list Q) (d : Q) (c : Controller.t) :
  nextDoubleSupportDuration_calls (ds ++ [d]) c = Controller.nextDoubleSupportDuration d c.
Proof.
  revert c. induction ds as [|a ds IH]; intros c; [reflexivity|].
  cbn [app nextDoubleSupportDuration_calls]. rewrite IH. reflexivity.
Qed.

(** X16.  Overrides do not queue.  After any number of calls of
    [nextDoubleSupportDuration] the controller is the one the last call
    alone leaves: [doubleSupportDuration()] then returns the last duration
    given when it is positive, and the plan's duration when it is not,
    whatever was given before. *)
Theorem nextDoubleSupportDuration_last_wins (ds : list Q) (d : Q) (c : Controller.t) :
  let c' := nextDoubleSupportDuration_calls (ds ++ [d]) c in
  c' = Controller.nextDoubleSupportDuration d c /\
  (0 < d -> fst (Controller.doubleSupportDuration c') = d) /\
  (d <= 0 ->
     fst (Controller.doubleSupportDuration c')
     = FootstepPlan.doubleSupportDuration (Controller.plan c)).
Proof.
  cbv zeta. rewrite nextDoubleSupportDuration_calls_last.
  split; [reflexivity|].
  unfold Controller.doubleSupportDuration. cbn.
  split; intros Hd; destruct (Qlt_le_dec 0 d); try lra; reflexivity.
Qed.

(** Overrides of 0.5 s, then 0.3 s, then -1 s on a fresh controller around
    the default plan: the call returns the plan's 0.2 s. *)
Lemma nextDoubleSupportDuration_last_wins_witness :
  fst (Controller.doubleSupportDuration
         (nextDoubleSupportDuration_calls ([0.5; 0.3] ++ [-1])
            (Controller.init FootstepPlan.init 0.1 (robot_with_foot_forces 300 100))))
  = 0.2.
Proof.
  apply (proj2 (proj2 (nextDoubleSupportDuration_last_wins [0.5; 0.3] (-1)
                         (Controller.init FootstepPlan.init 0.1
                            (robot_with_foot_forces 300 100))))).
  vm_compute. discriminate.
Defined.

(** ** FootstepPlan: overrides and sequences of setter calls *)

(** X11.  Setter calls never reach past an override.  When the role contact a
    swing getter consults carries an override under the getter's key, the
    getter returns the override after any sequence of setter calls,
    whatever their arguments, and whether or not the override is in the
    range the setter of the plan's member clamps to. *)
Theorem overrides_outlast_setter_calls (T : Q) (cs : list setter_call)
    (p : FootstepPlan.t) :
  (forall o : Q,
     swingConfig (FootstepPlan.prevContact p) !! "height" = Some (CfgNumber o) ->
     FootstepPlan.swingHeight (calls T cs p) = Ok o) /\
  (forall o : Q,
     swingConfig (FootstepPlan.prevContact p) !! "takeoff_pitch" = Some (CfgNumber o) ->
     FootstepPlan.takeoffPitch (calls T cs p) = Ok o) /\
  (forall o : Q,
     swingConfig (FootstepPlan.prevContact p) !! "landing_pitch" = Some (CfgNumber o) ->
     FootstepPlan.landingPitch (calls T cs p) = Ok o) /\
  (forall o : Vector3d,
     swingConfig (FootstepPlan.prevContact p) !! "takeoff_offset" = Some (CfgVector o) ->
     FootstepPlan.takeoffOffset (calls T cs p) = Ok o) /\
  (forall o : Q,
     swingConfig (FootstepPlan.supportContact p) !! "takeoff_ratio" = Some (CfgNumber o) ->
     FootstepPlan.takeoffRatio (calls T cs p) = Ok o) /\
  (forall o : Q,
     swingConfig (FootstepPlan.supportContact p) !! "landing_ratio" = Some (CfgNumber o) ->
     FootstepPlan.landingRatio (calls T cs p) = Ok o).
Proof.
  destruct (calls_frame T cs p) as (_ & _ & _ & Hprev & Hsupport & _ & _).
  unfold FootstepPlan.prevContact, FootstepPlan.supportContact.
  repeat match goal with |- _ /\ _ => split end; intros o Ho.
  - apply (shadows_double FootstepPlan.prevContact "height" FootstepPlan.swingHeight_).
    unfold FootstepPlan.prevContact. rewrite Hprev. exact Ho.
  - apply (shadows_double FootstepPlan.prevContact "takeoff_pitch"
             FootstepPlan.takeoffPitch_).
    unfold FootstepPlan.prevContact. rewrite Hprev. exact Ho.
  - apply (shadows_double FootstepPlan.prevContact "landing_pitch"
             FootstepPlan.landingPitch_).
    unfold FootstepPlan.prevContact. rewrite Hprev. exact Ho.
  - apply (shadows_Vector3d FootstepPlan.prevContact "takeoff_offset"
             FootstepPlan.takeoffOffset_).
    unfold FootstepPlan.prevContact. rewrite Hprev. exact Ho.
  - apply (shadows_double FootstepPlan.supportContact "takeoff_ratio"
             FootstepPlan.takeoffRatio_).
    unfold FootstepPlan.supportContact. rewrite Hsupport. exact Ho.
  - apply (shadows_double FootstepPlan.supportContact "landing_ratio"
             FootstepPlan.landingRatio_).
    unfold FootstepPlan.supportContact. rewrite Hsupport. exact Ho.
Qed.

(** On [plan_with_overrides]: after swing heights of 0.2 m and 0 m and a
    CoM height of 0.8 m are set, the swing height read is still the
    override, 0.1 m. *)
Lemma overrides_outlast_setter_calls_witness :
  FootstepPlan.swingHeight
    (calls 0.1 [Call_swingHeight 0.2; Call_comHeight 0.8; Call_swingHeight 0]
       plan_with_overrides)
  = Ok 0.1.
Proof.
  apply (proj1 (overrides_outlast_setter_calls 0.1
                  [Call_swingHeight 0.2; Call_comHeight 0.8; Call_swingHeight 0]
                  plan_with_overrides)).
  vm_compute. reflexivity.
Defined.
